(** * mc-prisms-pf: the parameter-file parser (etl.py) and the file
      organizer (importsim.py)

    A shallow embedding of the two Python modules.  Python objects that
    are mutated through several references (the parameter dictionaries,
    [current_section], [section_stack]) live in an explicit store; a
    Python exception is the [Raise] outcome of the error monad [res]. *)

From stdpp Require Import base list strings.
From Stdlib Require Import Ascii String Lia.

Local Open Scope string_scope.
Local Open Scope list_scope.

(** ** Python strings

    A [str] is modelled as a [string]: a character is a code point
    below 256. *)
Module Py.

(** [str.isspace] on one character, which is also the class [\s] of
    [re] on [str] patterns: TAB..CR, FS..US, SPACE, NEL and NBSP are the
    white-space code points below 256. *)
Definition is_space (c : ascii) : bool :=
  let n := nat_of_ascii c in
  (Nat.leb 9 n && Nat.leb n 13) || (Nat.leb 28 n && Nat.leb n 32)
  || Nat.eqb n 133 || Nat.eqb n 160.

Definition newline : ascii := ascii_of_nat 10.
Definition nl : string := String newline EmptyString.

Definition is_empty (s : string) : bool :=
  match s with EmptyString => true | String _ _ => false end.

(** [s.lstrip()] *)
Fixpoint lstrip (s : string) : string :=
  match s with
  | EmptyString => EmptyString
  | String c s' => if is_space c then lstrip s' else s
  end.

(** [s.rstrip()] *)
Fixpoint rstrip (s : string) : string :=
  match s with
  | EmptyString => EmptyString
  | String c s' =>
      let t := rstrip s' in
      if is_space c && is_empty t then EmptyString else String c t
  end.

(** [s.strip()] *)
Definition strip (s : string) : string := rstrip (lstrip s).

(** [s.startswith(p)], returning what follows the prefix. *)
Fixpoint strip_prefix (p s : string) : option string :=
  match p, s with
  | EmptyString, _ => Some s
  | String a p', String b s' =>
      if Ascii.eqb a b then strip_prefix p' s' else None
  | String _ _, EmptyString => None
  end.

Definition startswith (s p : string) : bool :=
  match strip_prefix p s with Some _ => true | None => false end.

(** The first [n] characters of [s]. *)
Fixpoint take_str (n : nat) (s : string) : string :=
  match n, s with
  | S n', String c s' => String c (take_str n' s')
  | _, _ => EmptyString
  end.

End Py.

(** ** The fragment of [re] the parser uses

    A backtracking matcher in continuation-passing style: alternatives
    are tried in the order the [re] module tries them, and the first
    complete match wins.  Every quantifier of the two patterns of
    etl.py ranges over a character class. *)
Module Re.

Inductive regex : Type :=
| Lit (s : string)                                 (* literal text *)
| Rep (cls : ascii -> bool) (plus greedy : bool)   (* c*  c+  c*?  c+? *)
| Grp (n : nat) (r : regex)                        (* ( r ), group n *)
| Opt (r : regex)                                  (* (?: r )? *)
| Cat (r1 r2 : regex)
| Eos.                                             (* $ *)

(** [.] matches everything but a newline. *)
Definition dot (c : ascii) : bool := negb (Ascii.eqb c Py.newline).
(** [\s] and [\S] *)
Definition ws (c : ascii) : bool := Py.is_space c.
Definition nws (c : ascii) : bool := negb (Py.is_space c).

(** Groups that took part in the match, the most recent binding first. *)
Definition caps := list (nat * string).

Fixpoint group (n : nat) (c : caps) : option string :=
  match c with
  | [] => None
  | (m, s) :: c' => if Nat.eqb m n then Some s else group n c'
  end.

Section Matcher.
Context {R : Type}.

Definition orelse (a b : option R) : option R :=
  match a with Some r => Some r | None => b end.

(** [c*] greedy: the longest run first, giving characters back one by one. *)
Fixpoint rep_greedy (cls : ascii -> bool) (s : string)
    (k : string -> option R) : option R :=
  match s with
  | String c s' =>
      if cls c then orelse (rep_greedy cls s' k) (k s) else k s
  | EmptyString => k s
  end.

(** [c*?] lazy: the shortest run first, taking characters one by one. *)
Fixpoint rep_lazy (cls : ascii -> bool) (s : string)
    (k : string -> option R) : option R :=
  orelse (k s)
    match s with
    | String c s' => if cls c then rep_lazy cls s' k else None
    | EmptyString => None
    end.

Definition rep (cls : ascii -> bool) (plus greedy : bool) (s : string)
    (k : string -> option R) : option R :=
  let star := if greedy then rep_greedy cls else rep_lazy cls in
  if plus then
    match s with
    | String c s' => if cls c then star s' k else None
    | EmptyString => None
    end
  else star s k.
End Matcher.

(** [$]: the end of the string, or just before a newline that ends it. *)
Definition at_eos (s : string) : bool :=
  match s with
  | EmptyString => true
  | String c EmptyString => Ascii.eqb c Py.newline
  | _ => false
  end.

(** The text a group consumed: what [s] has in front of the rest [s']. *)
Definition consumed (s s' : string) : string :=
  Py.take_str (String.length s - String.length s') s.

Fixpoint run (r : regex) (s : string) (c : caps)
    (k : string -> caps -> option caps) : option caps :=
  match r with
  | Lit l =>
      match Py.strip_prefix l s with Some s' => k s' c | None => None end
  | Rep cls plus greedy => rep cls plus greedy s (fun s' => k s' c)
  | Grp n r' => run r' s c (fun s' c' => k s' ((n, consumed s s') :: c'))
  | Opt r' => orelse (run r' s c k) (k s c)
  | Cat r1 r2 => run r1 s c (fun s' c' => run r2 s' c' k)
  | Eos => if at_eos s then k s c else None
  end.

(** [re.match(r, s)]: anchored at the start, free at the end. *)
Definition match_ (r : regex) (s : string) : option caps :=
  run r s [] (fun _ c => Some c).

(** [r"subsection\s+(.+)"] *)
Definition subsection_re : regex :=
  Cat (Lit "subsection")
 (Cat (Rep ws true true)
      (Grp 1 (Rep dot true true))).

(** [(?:\s*,\s*(\S+))?$], the end of the pattern of [set] lines *)
Definition type_suffix : regex :=
  Cat (Opt (Cat (Rep ws false true)
           (Cat (Lit ",")
           (Cat (Rep ws false true)
                (Grp 3 (Rep nws true true))))))
      Eos.

(** [\s*=\s*(.+?)(?:\s*,\s*(\S+))?$], what follows the key *)
Definition assignment : regex :=
  Cat (Rep ws false true)
 (Cat (Lit "=")
 (Cat (Rep ws false true)
 (Cat (Grp 2 (Rep dot true false))
      type_suffix))).

(** [r"set\s+(.+?)\s*=\s*(.+?)(?:\s*,\s*(\S+))?$"] *)
Definition set_re : regex :=
  Cat (Lit "set")
 (Cat (Rep ws true true)
 (Cat (Grp 1 (Rep dot true false))
      assignment)).

End Re.

(** ** Exceptions

    A computation either returns or raises; [E] is the type of the
    exceptions. *)
Module Exc.

Inductive res (E A : Type) : Type :=
| Ok (a : A)
| Raise (e : E).
Arguments Ok {E A} a.
Arguments Raise {E A} e.

(** Statements in sequence: an exception ends the sequence. *)
#[export] Instance res_bind {E} : MBind (res E) := fun A B k c =>
  match c with Ok a => k a | Raise e => Raise e end.

#[export] Instance res_fmap {E} : FMap (res E) := fun A B f c =>
  match c with Ok a => Ok (f a) | Raise e => Raise e end.

End Exc.
Export Exc.

(** ** etl.py *)
Module Etl.

(** *** Python values and the store *)

(** The values the parser handles: [None], a [str], or a reference to a
    [dict] in the store. *)
Inductive pyval : Type :=
| VNone
| VStr (s : string)
| VRef (a : nat).

(** A [dict] with [str] keys, in insertion order. *)
Abbreviation pydict := (list (string * pyval)).

(** The store: the [dict] objects, by address. *)
Abbreviation heap := (list pydict).

Inductive exn : Type :=
| KeyError (k : string)
| TypeError
| AttributeError
| OSError                  (* open() / read_text() failed *)
| PyException (msg : string)
| Dangling.                (* a reference outside the store: not a Python
                              exception, and no parse ends with it
                              ([parse_lines_tree_whole]) *)

Abbreviation res := (Exc.res exn).

(** [d.get(k)] as an option *)
Fixpoint dict_get (k : string) (d : pydict) : option pyval :=
  match d with
  | [] => None
  | (k', v) :: d' => if String.eqb k' k then Some v else dict_get k d'
  end.

(** [k in d] *)
Definition dict_mem (k : string) (d : pydict) : bool :=
  match dict_get k d with Some _ => true | None => false end.

(** [d[k] = v]: an existing key keeps its place, a new one goes last. *)
Fixpoint dict_set (k : string) (v : pyval) (d : pydict) : pydict :=
  match d with
  | [] => [(k, v)]
  | (k', v') :: d' =>
      if String.eqb k' k then (k, v) :: d' else (k', v') :: dict_set k v d'
  end.

(** A dict display [{...}]: a new object, at the next free address. *)
Definition alloc (d : pydict) (h : heap) : heap * pyval :=
  (h ++ [d], VRef (List.length h)).

(** [target[k]] *)
Definition getitem (h : heap) (target : pyval) (k : string) : res pyval :=
  match target with
  | VRef a =>
      match h !! a with
      | Some d =>
          match dict_get k d with
          | Some v => Ok v
          | None => Raise (KeyError k)
          end
      | None => Raise Dangling
      end
  | VStr _ => Raise TypeError     (* string indices must be integers *)
  | VNone => Raise TypeError      (* 'NoneType' object is not subscriptable *)
  end.

(** [target[k] = v] *)
Definition setitem (h : heap) (target : pyval) (k : string) (v : pyval)
    : res heap :=
  match target with
  | VRef a =>
      match h !! a with
      | Some d => Ok (<[a := dict_set k v d]> h)
      | None => Raise Dangling
      end
  | VStr _ => Raise TypeError     (* no item assignment on 'str' *)
  | VNone => Raise TypeError      (* no item assignment on 'NoneType' *)
  end.

(** [m.group(n)] of a successful match: [None] when the group took no part. *)
Definition group (n : nat) (m : Re.caps) : option string := Re.group n m.

(** [m.group(n).strip()] *)
Definition group_strip (n : nat) (m : Re.caps) : res string :=
  match group n m with
  | Some g => Ok (Py.strip g)
  | None => Raise AttributeError
  end.

(** *** ParameterFileParser *)

(** The store, what was printed, and the two fields of [self].
    [section_stack] has its top (the end of the Python list) first. *)
Record parser : Type := mkParser {
  store : heap;
  stdout : list string;
  parameters : nat;
  section_stack : list pyval
}.

Definition with_store (h : heap) (self : parser) : parser :=
  mkParser h (stdout self) (parameters self) (section_stack self).
Definition with_stack (st : list pyval) (self : parser) : parser :=
  mkParser (store self) (stdout self) (parameters self) st.
Definition print (msg : string) (self : parser) : parser :=
  mkParser (store self) (stdout self ++ [msg]) (parameters self)
           (section_stack self).

(** [ParameterFileParser()] in a store [h]: [self.parameters = {}],
    [self.section_stack = []]. *)
Definition init (h : heap) : parser :=
  mkParser (h ++ [[]]) [] (List.length h) [].

(** [subsection not in self.parameters] *)
Definition not_in_parameters (self : parser) (subsection : string)
    : res bool :=
  match store self !! parameters self with
  | Some root => Ok (negb (dict_mem subsection root))
  | None => Raise Dangling
  end.

(** Lines 41-44: a [subsection] line, once its name is known. *)
Definition open_subsection (subsection : string) (st : parser * pyval)
    : res (parser * pyval) :=
  let '(self, current_section) := st in
  fresh ← not_in_parameters self subsection;
  h ← (if (fresh : bool) then
          let '(h0, d) := alloc [] (store self) in
          setitem h0 current_section subsection d
        else Ok (store self));
  let self := with_stack (current_section :: section_stack self)
                         (with_store h self) in
  current_section ← getitem h current_section subsection;
  Ok (self, current_section).

(** Lines 49-50: an [end] line. *)
Definition close_subsection (st : parser * pyval) : parser * pyval :=
  let '(self, current_section) := st in
  match section_stack self with
  | top :: rest => (with_stack rest self, top)
  | [] => st
  end.

(** Lines 58-61: the type of a [set] line. *)
Definition value_type_of (key_value_match : Re.caps) : pyval :=
  match group 3 key_value_match with
  | Some (String c g) => VStr (Py.strip (String c g))
  | _ => VNone
  end.

(** Line 62: [current_section[key] = {"value": value, "type": value_type}] *)
Definition set_parameter (key value : string) (value_type : pyval)
    (st : parser * pyval) : res (parser * pyval) :=
  let '(self, current_section) := st in
  let '(h0, leaf) :=
    alloc [("value", VStr value); ("type", value_type)] (store self) in
  h ← setitem h0 current_section key leaf;
  Ok (with_store h self, current_section).

(** Line 64 *)
Definition warn (line : string) (st : parser * pyval) : parser * pyval :=
  (print ("Warning: Unable to parse line: " +:+ line) st.1, st.2).

(** The body of [for line in f], lines 25-64: the parser and the local
    [current_section] before, and after. *)
Definition loop_body (line : string) (st : parser * pyval)
    : res (parser * pyval) :=
  let line := Py.strip line in
  if Py.is_empty line then Ok st
  else if Py.startswith line "#" then Ok st
  else
    match Re.match_ Re.subsection_re line with
    | Some subsection_match =>
        subsection ← group_strip 1 subsection_match;
        open_subsection subsection st
    | None =>
        if String.eqb line "end" then Ok (close_subsection st)
        else
          match Re.match_ Re.set_re line with
          | Some key_value_match =>
              key ← group_strip 1 key_value_match;
              value ← group_strip 2 key_value_match;
              set_parameter key value (value_type_of key_value_match) st
          | None => Ok (warn line st)
          end
    end.

(** [for line in f: ...] *)
Fixpoint for_lines (lines : list string) (st : parser * pyval)
    : res (parser * pyval) :=
  match lines with
  | [] => Ok st
  | line :: rest => st' ← loop_body line st; for_lines rest st'
  end.

(** Iterating a text file: the lines, each with its newline. *)
Fixpoint readlines_from (acc s : string) : list string :=
  match s with
  | EmptyString => if Py.is_empty acc then [] else [acc]
  | String c s' =>
      if Ascii.eqb c Py.newline
      then (acc +:+ String c EmptyString) :: readlines_from "" s'
      else readlines_from (acc +:+ String c EmptyString) s'
  end.
Definition readlines (s : string) : list string := readlines_from "" s.

(** A file system: the text of the files that can be opened. *)
Definition filesystem := string -> option string.

(** [self.parse(prm_file)]: the method returns [None]; its result is
    the parser it leaves behind. *)
Definition parse (fs : filesystem) (prm_file : string) (self : parser)
    : res parser :=
  let current_section := VRef (parameters self) in
  match fs prm_file with
  | None => Raise OSError
  | Some text =>
      '(self', _) ← for_lines (readlines text) (self, current_section);
      Ok self'
  end.

(** The lines of a file, parsed by a parser made for them in store [h]. *)
Definition parse_lines (h : heap) (lines : list string) : res parser :=
  let self := init h in
  '(self', _) ← for_lines lines (self, VRef (parameters self));
  Ok self'.

(** *** Reading a store back as a tree *)

#[warnings="-register-all"]
Inductive tree : Type :=
| TNone
| TStr (s : string)
| TDict (items : list (string * tree))
| TCut.                    (* deeper than the fuel reaches *)

Fixpoint reify (fuel : nat) (h : heap) (v : pyval) : tree :=
  match v with
  | VNone => TNone
  | VStr s => TStr s
  | VRef a =>
      match fuel with
      | 0 => TCut
      | S fuel' =>
          match h !! a with
          | Some d => TDict (map (fun kv => (kv.1, reify fuel' h kv.2)) d)
          | None => TCut
          end
      end
  end.

(** [self.parameters] as a tree.  A dict holds only dicts made after it,
    so the tree under [self.parameters] is no deeper than the number of
    dicts from that address on. *)
Definition parameters_tree (self : parser) : tree :=
  reify (List.length (store self) - parameters self) (store self)
        (VRef (parameters self)).

Definition result_tree (r : res parser) : res tree :=
  match r with Ok self => Ok (parameters_tree self) | Raise e => Raise e end.

(** [{"value": v, "type": ty}] *)
Definition leaf (v : string) (ty : tree) : tree :=
  TDict [("value", TStr v); ("type", ty)].

(** The line kinds, as [loop_body] tells them apart. *)

(** [line] is a [subsection] line that opens [name]. *)
Definition opens (line name : string) : Prop :=
  let l := Py.strip line in
  Py.is_empty l = false /\ Py.startswith l "#" = false /\
  exists m, Re.match_ Re.subsection_re l = Some m /\
            group_strip 1 m = Ok name.



(** *** to_params *)

(** [Path(d) / name] *)
Definition path_join (d name : string) : string := d +:+ "/" +:+ name.

(** [_exists(path)] *)
Definition _exists (fs : filesystem) (path : string) : bool :=
  match fs path with Some _ => true | None => false end.

(** [_get_file_contents(path)] *)
Definition _get_file_contents (fs : filesystem) (path : string)
    : res string :=
  match fs path with Some text => Ok text | None => Raise OSError end.

(** What a local of [to_params] is bound to. *)
Inductive local : Type :=
| LText (s : string)
| LPath (p : string).

(** [self.to_params(calculation, source_directory)], lines 66-77: the
    statements up to the [return] of line 74.  Lines 78-82, the
    arguments of a call that is no longer there, are not part of any
    statement. *)
Definition to_params (fs : filesystem) (self : parser)
    (calculation source_directory : string) : res pydict :=
  let description_path := path_join source_directory "description.txt" in
  description ←
    (if _exists fs description_path
     then t ← _get_file_contents fs description_path; Ok (LText t)
     else Ok (LText ""));
  let observations_path := path_join source_directory "observations.txt" in
  observations ←
    (if _exists fs observations_path
     then t ← _get_file_contents fs observations_path; Ok (LText t)
     else Ok (LText ""));
  let description := LPath (path_join source_directory "description.txt") in
  Ok [("c:Calculation", VStr calculation)].

(** *** add_to_excel

    pandas and openpyxl are libraries, not code of this repository: the
    definitions of this part are a model written from their
    documentation, as far as [add_to_excel] uses them.  A workbook is its
    sheets in order, a sheet its rows of cells, a cell the text it
    holds; a data frame is its columns and its rows of cells, where a
    cell is a text or the missing value NaN.  The model tells a cell
    from another by its text only: that pandas reads a column of
    numerals as numbers, and writes them back as numbers, is not in
    it, nor is the renaming of empty and repeated header cells. *)

Inductive cell : Type :=
| Text (s : string)
| NaN.

Record DataFrame : Type := mkFrame {
  columns : list string;
  rows : list (list cell)
}.

Definition sheet := list (list string).
Definition workbook := list (string * sheet).

(** The spreadsheet files that exist. *)
Definition excel_files := string -> option workbook.

Definition write_file (path : string) (wb : workbook) (xl : excel_files)
    : excel_files :=
  fun p => if String.eqb p path then Some wb else xl p.

(** [pandas.DataFrame([params])]: one row, the keys as columns. *)
Definition DataFrame_of (params : list (string * string)) : DataFrame :=
  mkFrame (map fst params) [map (fun kv => Text kv.2) params].

(** What a cell of a frame is written as: NaN is written as an empty
    cell ([na_rep] is the empty string). *)
Definition cell_text (c : cell) : string :=
  match c with
  | Text s => s
  | NaN => ""
  end.

(** The rows of a frame as [to_excel] writes them. *)
Definition written_rows (frame : DataFrame) : sheet :=
  map (map cell_text) (rows frame).

(** [frame.to_excel(path, index=False)]: a new workbook whose one sheet,
    [Sheet1], has the header and the rows. *)
Definition to_excel_new (frame : DataFrame) : workbook :=
  [("Sheet1", columns frame :: written_rows frame)].

(** The texts that [pandas.read_excel] reads as NaN by default
    ([na_values] not given, [keep_default_na=True], [na_filter=True]). *)
Definition default_na_values : list string :=
  [""; "#N/A"; "#N/A N/A"; "#NA"; "-1.#IND"; "-1.#QNAN"; "-NaN"; "-nan";
   "1.#IND"; "1.#QNAN"; "<NA>"; "N/A"; "NA"; "NULL"; "NaN"; "None";
   "n/a"; "nan"; "null"].

Definition read_cell (s : string) : cell :=
  if existsb (String.eqb s) default_na_values then NaN else Text s.

(** [pandas.read_excel(path)]: the first sheet, its first row the header,
    the cells of the other rows through the NaN filter. *)
Definition read_excel (wb : workbook) : DataFrame :=
  match wb with
  | (_, header :: body) :: _ => mkFrame header (map (map read_cell) body)
  | _ => mkFrame [] []
  end.

(** [set(a).issubset(set(b))] *)
Definition issubset (a b : list string) : bool :=
  forallb (fun x => existsb (String.eqb x) b) a.

(** [writer.sheets[name]] *)
Fixpoint sheets_get (name : string) (wb : workbook) : option sheet :=
  match wb with
  | [] => None
  | (n, sh) :: wb' => if String.eqb n name then Some sh else sheets_get name wb'
  end.

(** [worksheet.max_row]: the last row with data, 1 on an empty sheet. *)
Definition max_row (sh : sheet) : nat := Nat.max 1 (List.length sh).

(** Writing [body] into a sheet from the 0-based row [startrow] on,
    over what is there ([if_sheet_exists="overlay"]). *)
Definition overlay (startrow : nat) (body : sheet) (sh : sheet) : sheet :=
  take startrow (sh ++ replicate (startrow - List.length sh) [])
  ++ body ++ drop (startrow + List.length body) sh.

Fixpoint sheets_set (name : string) (sh : sheet) (wb : workbook) : workbook :=
  match wb with
  | [] => [(name, sh)]
  | (n, s0) :: wb' =>
      if String.eqb n name then (n, sh) :: wb'
      else (n, s0) :: sheets_set name sh wb'
  end.

(** [add_to_excel(params, calculation, excel_file_path)] *)
Definition add_to_excel (xl : excel_files) (params : list (string * string))
    (calculation excel_file_path : string) : res excel_files :=
  let data_frame := DataFrame_of params in
  match xl excel_file_path with
  | None => Ok (write_file excel_file_path (to_excel_new data_frame) xl)
  | Some wb =>
      let existing_data_frame := read_excel wb in
      if negb (issubset (columns existing_data_frame) (columns data_frame))
      then Raise (PyException
        "Existing excel file does not have the same columns as the new data")
      else
        match sheets_get calculation wb with
        | None => Raise (KeyError calculation)
        | Some sh =>
            let sh' :=
              overlay (max_row sh) (written_rows existing_data_frame) sh in
            Ok (write_file excel_file_path (sheets_set calculation sh' wb) xl)
        end
  end.

End Etl.

(** ** importsim.py *)
Module ImportSim.

(** An instance of a subclass of [Exception], as the library calls
    raise them: its class and the text [str(e)] gives. *)
Record exception : Type := mkExc { exc_class : string; exc_str : string }.

Abbreviation res := (Exc.res exception).

(** The operating system and the library calls [organize_files] makes.
    [world] is the state of the file system, of the environment and of
    the clock.  [os.path.basename] and [os.path.join] are pure on
    [str], and [os.path.isdir] and [os.path.isfile] answer [False]
    where they cannot look.  [os.path.expanduser] (the password
    database), [os.path.abspath] (the working directory) and
    [glob.glob] read the world and may raise; [os.makedirs],
    [shutil.copy2] and [shutil.move] change it and may raise. *)
Class Os : Type := {
  world : Type;
  float : Type;
  time_time : world -> world * float;             (* time.time() *)
  fsub : float -> float -> float;                  (* a - b *)
  truthy : float -> bool;                          (* bool(a) *)
  zero : float;                                    (* 0 *)
  format_2f : float -> string;                     (* f"{a:.2f}" *)
  abspath : string -> world -> res string;
  expanduser : string -> world -> res string;
  basename : string -> string;
  join : string -> string -> string;
  isdir : string -> world -> bool;
  isfile : string -> world -> bool;
  glob : string -> world -> res (list string);
  makedirs : string -> world -> world * res ();    (* exist_ok=True *)
  copy2 : string -> string -> world -> world * res ();
  move : string -> string -> world -> world * res ()
}.

Section ImportSimulator.
Context `{os : Os}.

(** The attributes of an [ImportSimulator]; [None] is both the value
    [None] and an attribute not assigned yet. *)
Record ImportSimulator : Type := mkSim {
  src_dir : option string;
  dst_dir : option string;
  copy_output : bool;
  start_time : option float;
  code_dir : option string;
  data_dir : option string;
  output_dir : option string;
  image_dir : option string;
  movie_dir : option string;
  postprocess_dir : option string
}.

(** The dictionary [_create_result] returns. *)
Record result : Type := mkResult {
  r_src_dir : option string;
  r_dst_dir : option string;
  elapsed_time : float;
  success : bool;
  message : string
}.

(** A method body: it runs on [self] and the world, changes both, and
    returns or raises. *)
Definition M (A : Type) : Type :=
  ImportSimulator * world -> ImportSimulator * world * res A.

#[export] Instance M_ret : MRet M := fun A a s => (s, Ok a).
#[export] Instance M_bind : MBind M := fun A B k c s =>
  match c s with
  | (s', Ok a) => k a s'
  | (s', Raise e) => (s', Raise e)
  end.

Definition raise {A} (e : exception) : M A := fun s => (s, Raise e).

(** [try: c  except Exception as e: h e] *)
Definition try {A} (c : M A) (h : exception -> M A) : M A := fun s =>
  match c s with
  | (s', Ok a) => (s', Ok a)
  | (s', Raise e) => h e s'
  end.

(** A call that reads the world. *)
Definition ask {A} (f : world -> A) : M A := fun s => (s, Ok (f s.2)).
(** A call that reads the world and may raise. *)
Definition read {A} (f : world -> res A) : M A := fun s => (s, f s.2).
(** A call that changes the world. *)
Definition call {A} (f : world -> world * res A) : M A := fun s =>
  let '(w, r) := f s.2 in ((s.1, w), r).
(** [self.x] and [self.x = v] *)
Definition self_get {A} (f : ImportSimulator -> A) : M A :=
  fun s => (s, Ok (f s.1)).
Definition self_set (f : ImportSimulator -> ImportSimulator) : M () :=
  fun s => ((f s.1, s.2), Ok ()).

(** An attribute that has to hold a [str] where it is used. *)
Definition attr (f : ImportSimulator -> option string) : M string :=
  a ← self_get f;
  match a with
  | Some v => mret v
  | None => raise (mkExc "TypeError" "expected str, not NoneType")
  end.

Definition set_src_dir v self :=
  mkSim v (dst_dir self) (copy_output self) (start_time self)
    (code_dir self) (data_dir self) (output_dir self) (image_dir self)
    (movie_dir self) (postprocess_dir self).
Definition set_dst_dir v self :=
  mkSim (src_dir self) v (copy_output self) (start_time self)
    (code_dir self) (data_dir self) (output_dir self) (image_dir self)
    (movie_dir self) (postprocess_dir self).
Definition set_copy_output v self :=
  mkSim (src_dir self) (dst_dir self) v (start_time self)
    (code_dir self) (data_dir self) (output_dir self) (image_dir self)
    (movie_dir self) (postprocess_dir self).
Definition set_start_time v self :=
  mkSim (src_dir self) (dst_dir self) (copy_output self) v
    (code_dir self) (data_dir self) (output_dir self) (image_dir self)
    (movie_dir self) (postprocess_dir self).
Definition set_subdirs code data output image movie postprocess self :=
  mkSim (src_dir self) (dst_dir self) (copy_output self) (start_time self)
    code data output image movie postprocess.

(** [__init__] *)
Definition init : ImportSimulator :=
  mkSim None None true None None None None None None None.

(** [_create_result(success, message)] *)
Definition _create_result (success : bool) (message : string) : M result :=
  t0 ← self_get start_time;
  elapsed_time ←
    match t0 with
    | Some t0 =>
        if truthy t0
        then t ← call (fun w => let '(w, t) := time_time w in (w, Ok t));
             mret (fsub t t0)
        else mret zero
    | None => mret zero
    end;
  src ← self_get src_dir;
  dst ← self_get dst_dir;
  mret (mkResult src dst elapsed_time success message).

(** [for directory in ds: os.makedirs(directory, exist_ok=True)] *)
Fixpoint makedirs_each (ds : list string) : M () :=
  match ds with
  | [] => mret ()
  | directory :: ds' =>
      _ ← call (makedirs directory); makedirs_each ds'
  end.

(** [_create_directory_structure()] *)
Definition _create_directory_structure : M () :=
  dst ← attr dst_dir;
  _ ← call (makedirs dst);
  let code := join dst "code" in
  let data := join dst "data" in
  let output := join data "vtk" in
  let image := join data "images" in
  let movie := join data "movies" in
  let postprocess := join data "postprocess" in
  _ ← self_set (set_subdirs (Some code) (Some data) (Some output)
                            (Some image) (Some movie) (Some postprocess));
  makedirs_each [code; data; output; image; movie; postprocess].

(** [for file_path in matching_files: copy2 or move] *)
Fixpoint transfer_each (files : list string) (destination : string)
    (copy : bool) : M () :=
  match files with
  | [] => mret ()
  | file_path :: files' =>
      _ ← (if copy then call (copy2 file_path destination)
           else call (move file_path destination));
      transfer_each files' destination copy
  end.

(** The loop of [_copy_files_by_pattern] over the patterns, threading
    [found_files]. *)
Fixpoint for_patterns (patterns : list string) (destination : string)
    (copy : bool) (found_files : bool) : M bool :=
  match patterns with
  | [] => mret found_files
  | pattern :: patterns' =>
      src ← attr src_dir;
      matching_files ← read (glob (join src pattern));
      match matching_files with
      | [] => for_patterns patterns' destination copy found_files
      | _ :: _ =>
          _ ← transfer_each matching_files destination copy;
          for_patterns patterns' destination copy true
      end
  end.

(** [_copy_files_by_pattern(patterns, destination, copy)] *)
Definition _copy_files_by_pattern (patterns : list string)
    (destination : string) (copy : bool) : M bool :=
  for_patterns patterns destination copy false.

(** [_handle_special_files()] *)
Definition _handle_special_files : M () :=
  src ← attr src_dir;
  let cmake_file := join src "CMakeLists.txt" in
  present ← ask (isfile cmake_file);
  _ ← (if (present : bool)
       then code ← attr code_dir; call (copy2 cmake_file code)
       else mret ());
  src ← attr src_dir;
  let integrated_fields_file := join src "integratedFields.txt" in
  present ← ask (isfile integrated_fields_file);
  if (present : bool)
  then post ← attr postprocess_dir;
       call (copy2 integrated_fields_file post)
  else mret ().

Definition code_extensions : list string :=
  ["*.cc"; "*.c"; "*.cpp"; "*.cxx"; "*.h"; "*.hpp";
   "*.prm"; "*.py"; "*.sh"; "*.json"; "*.yaml"; "*.yml"].
Definition output_extensions : list string := ["*.vtk"; "*.vtu"; "*.pvtu"].

(** [_organize_files()] *)
Definition _organize_files : M () :=
  code ← attr code_dir;
  _ ← _copy_files_by_pattern code_extensions code true;
  output ← attr output_dir;
  copy ← self_get copy_output;
  _ ← _copy_files_by_pattern output_extensions output copy;
  dst ← attr dst_dir;
  _ ← _copy_files_by_pattern ["*.md"] dst true;
  _handle_special_files.

(** What is left of [organize_files] after line 52. *)
Definition organize_files_tail : M result :=
  try (_ ← _create_directory_structure; mret None)
      (fun e => r ← _create_result false
         ("Failed to create directory structure: " +:+ exc_str e);
         mret (Some r)) ≫= fun returned =>
  match returned with
  | Some r => mret r
  | None =>
  try (_ ← _organize_files; mret None)
      (fun e => r ← _create_result false
         ("Failed to organize files: " +:+ exc_str e);
         mret (Some r)) ≫= fun returned =>
  match returned with
  | Some r => mret r
  | None =>
      t ← call (fun w => let '(w, t) := time_time w in (w, Ok t));
      t0 ← self_get start_time;
      match t0 with
      | None => raise (mkExc "TypeError" "unsupported operand type(s)")
      | Some t0 =>
          let elapsed_time := fsub t t0 in
          _create_result true
            ("File organization completed in " +:+ format_2f elapsed_time
             +:+ " seconds.")
      end
  end
  end.

(** Lines 39-48 of [organize_files]: the start time, the two
    directories and the flag.  Nothing here is inside a [try]. *)
Definition organize_files_head (src : string) (dst : option string)
    (copy : bool) : M () :=
  t ← call (fun w => let '(w, t) := time_time w in (w, Ok t));
  _ ← self_set (set_start_time (Some t));
  expanded ← read (expanduser src);
  src' ← read (abspath expanded);
  _ ← self_set (set_src_dir (Some src'));
  _ ← self_set (set_copy_output copy);
  match dst with
  | None =>
      src' ← attr src_dir;
      let last_folder := basename src' in
      dst' ← read (abspath (join "." last_folder));
      self_set (set_dst_dir (Some dst'))
  | Some d =>
      expanded ← read (expanduser d);
      dst' ← read (abspath expanded);
      self_set (set_dst_dir (Some dst'))
  end.

(** [self.organize_files(src_dir, dst_dir, copy_output)] *)
Definition ImportSimulator_organize_files (src : string)
    (dst : option string) (copy : bool) : M result :=
  _ ← organize_files_head src dst copy;
  src' ← attr src_dir;
  is_dir ← ask (isdir src');
  if negb is_dir then
    _create_result false
      ("Source directory '" +:+ src' +:+ "' does not exist.")
  else organize_files_tail.


End ImportSimulator.
End ImportSim.

(** ** Vocabulary of the properties of the parser *)
Module ParserModel.
Import Etl.

(** The bottom of [current_section :: section_stack] is the root dict. *)
Definition rooted (st : parser * pyval) : Prop :=
  last (st.2 :: section_stack st.1) = Some (VRef (parameters st.1)).

(** No part of the tree was cut for want of fuel. *)
Fixpoint cut_free (t : tree) : bool :=
  match t with
  | TCut => false
  | TDict items => forallb (fun '(_, t') => cut_free t') items
  | _ => true
  end.

(** From address [p] on, a dict refers only to dicts made after it. *)
Definition refs_ahead (p : nat) (h : heap) : Prop :=
  forall a d k b,
    p <= a -> h !! a = Some d -> (k, VRef b) ∈ d -> a < b < List.length h.

(** [v] is no reference, or refers to a dict of the store from [p] on. *)
Definition own (p : nat) (h : heap) (v : pyval) : Prop :=
  match v with VRef a => p <= a < List.length h | _ => True end.

(** The store of a parser at work: its root dict is there, its dicts
    refer ahead, and the current section and the section stack are
    its own. *)
Definition well_formed (st : parser * pyval) : Prop :=
  parameters st.1 < List.length (store st.1) /\
  refs_ahead (parameters st.1) (store st.1) /\
  Forall (own (parameters st.1) (store st.1)) (st.2 :: section_stack st.1).

(** A step that ends well: in a well-formed state, or with a Python
    exception. *)
Definition ends_well (r : res (parser * pyval)) : Prop :=
  match r with
  | Ok st => well_formed st
  | Raise e => e <> Dangling
  end.

(** Every character of [s] is in the class [p]. *)
Fixpoint all_chars (p : ascii -> bool) (s : string) : bool :=
  match s with
  | EmptyString => true
  | String c s' => p c && all_chars p s'
  end.

(** A token: one character or more, none of them white space. *)
Definition token (s : string) : Prop :=
  Py.is_empty s = false /\ all_chars Re.nws s = true.

(** A run of white space, the empty one included. *)
Definition blank (s : string) : Prop := all_chars Re.ws s = true.

(** The first character of [s] is in the class [p]; the last one is. *)
Definition begins_in (p : ascii -> bool) (s : string) : bool :=
  match s with
  | EmptyString => false
  | String c _ => p c
  end.

Fixpoint ends_in (p : ascii -> bool) (s : string) : bool :=
  match s with
  | EmptyString => false
  | String c EmptyString => p c
  | String _ s' => ends_in p s'
  end.

(** A text in which the character [x] does not occur: one character or
    more, none of them a newline, the first and the last of them no
    white space. *)
Definition text_without (x : ascii) (s : string) : Prop :=
  begins_in Re.nws s = true /\ ends_in Re.nws s = true /\
  all_chars (fun c => Re.dot c && negb (Ascii.eqb c x)) s = true.

(** [line] is a [set] line for [key], with [value] and the type [ty]. *)
Definition sets (line key value : string) (ty : pyval) : Prop :=
  let l := Py.strip line in
  Py.is_empty l = false /\ Py.startswith l "#" = false /\
  Re.match_ Re.subsection_re l = None /\ l <> "end" /\
  exists m, Re.match_ Re.set_re l = Some m /\
            group_strip 1 m = Ok key /\ group_strip 2 m = Ok value /\
            value_type_of m = ty.



(** The same objects, [n] addresses further on in the store. *)
Definition shift_val (n : nat) (v : pyval) : pyval :=
  match v with VRef a => VRef (n + a) | _ => v end.

Definition shift_item (n : nat) (kv : string * pyval) : string * pyval :=
  (kv.1, shift_val n kv.2).

Definition shift_dict (n : nat) (d : pydict) : pydict := shift_item n <$> d.

(** The parser [self] as it is when the store has the dicts [h0] in
    front of its own. *)
Definition shift_parser (h0 : heap) (self : parser) : parser :=
  mkParser (h0 ++ (shift_dict (List.length h0) <$> store self))
           (stdout self)
           (List.length h0 + parameters self)
           (shift_val (List.length h0) <$> section_stack self).

Definition shift_state (h0 : heap) (st : parser * pyval) : parser * pyval :=
  (shift_parser h0 st.1, shift_val (List.length h0) st.2).

End ParserModel.

(** ** Vocabulary of the properties of the organizer *)
Module OrganizerModel.
Import ImportSim.
Section Frame.
Context `{os : Os}.

(** [self'] has the source, the destination and the start time of
    [self]. *)
Definition same_run (self self' : ImportSimulator) : Prop :=
  src_dir self' = src_dir self /\
  dst_dir self' = dst_dir self /\
  start_time self' = start_time self.

(** A method body that leaves those three attributes alone, whether
    it returns or raises. *)
Definition keeps {A} (c : M A) : Prop :=
  forall s, same_run s.1 (c s).1.1.

(** What lines 40-48 compute in the world [w]: the source and the
    destination, or the exception of the first path function that
    raises. *)
Definition paths (src : string) (dst : option string) (w : world)
    : res (string * string) :=
  expanded ← expanduser src w;
  src' ← abspath expanded w;
  dst' ← match dst with
         | None => abspath (join "." (basename src')) w
         | Some d => expanded ← expanduser d w; abspath expanded w
         end;
  Ok (src', dst').

(** [self] after lines 39-48 have run without an exception. *)
Definition prepared (self : ImportSimulator) (t0 : float)
    (src' dst' : string) (copy : bool) : ImportSimulator :=
  set_dst_dir (Some dst')
    (set_copy_output copy
       (set_src_dir (Some src') (set_start_time (Some t0) self))).


End Frame.

(** *** A small operating system to run the organizer on

    Directories, files as directory, stem and extension, a clock, and
    a switch that makes every write fail.  [expanduser] knows the one
    home directory and raises on a NUL in a user name, as
    [pwd.getpwnam] does; the working directory is [/cwd]. *)
Record toy_world : Type := mkToy {
  toy_dirs : list string;
  toy_files : list (string * string * string);
  toy_clock : nat;
  toy_locked : bool
}.

Definition toy_path (f : string * string * string) : string :=
  f.1.1 +:+ "/" +:+ f.1.2 +:+ "." +:+ f.2.

Definition toy_find (path : string) (w : toy_world)
    : option (string * string * string) :=
  List.find (fun f => String.eqb (toy_path f) path) (toy_files w).

Definition toy_denied : exception :=
  mkExc "PermissionError" "[Errno 13] Permission denied".
Definition toy_missing : exception :=
  mkExc "FileNotFoundError" "[Errno 2] No such file or directory".
Definition toy_null : exception :=
  mkExc "ValueError" "embedded null byte".
Definition toy_exists : exception :=
  mkExc "Error" "Destination path already exists".

Definition nul : ascii := ascii_of_nat 0.

Fixpoint has_nul (s : string) : bool :=
  match s with
  | EmptyString => false
  | String c s' => Ascii.eqb c nul || has_nul s'
  end.

Definition toy_expanduser (p : string) (w : toy_world) : res string :=
  match p with
  | String "~" EmptyString => Ok "/home/toy"
  | String "~" (String "/" rest) => Ok ("/home/toy/" +:+ rest)
  | String "~" _ => if has_nul p then Raise toy_null else Ok p
  | _ => Ok p
  end.

Definition toy_abspath (p : string) (w : toy_world) : res string :=
  match p with
  | String "/" _ => Ok p
  | String "." (String "/" rest) => Ok ("/cwd/" +:+ rest)
  | _ => Ok ("/cwd/" +:+ p)
  end.

(** What follows the last [/]. *)
Fixpoint toy_basename_from (acc s : string) : string :=
  match s with
  | EmptyString => acc
  | String c s' =>
      if Ascii.eqb c "/" then toy_basename_from "" s'
      else toy_basename_from (acc +:+ String c EmptyString) s'
  end.

Definition toy_makedirs (d : string) (w : toy_world)
    : toy_world * res () :=
  if toy_locked w then (w, Raise toy_denied)
  else (mkToy (toy_dirs w ++ [d]) (toy_files w) (toy_clock w) false, Ok ()).

Definition toy_copy2 (path d : string) (w : toy_world)
    : toy_world * res () :=
  if toy_locked w then (w, Raise toy_denied)
  else match toy_find path w with
       | Some f =>
           (mkToy (toy_dirs w) (toy_files w ++ [(d, f.1.2, f.2)])
                  (toy_clock w) false, Ok ())
       | None => (w, Raise toy_missing)
       end.

(** [shutil.move] into a directory that has a file of that name
    raises [shutil.Error]. *)
Definition toy_move (path d : string) (w : toy_world)
    : toy_world * res () :=
  if toy_locked w then (w, Raise toy_denied)
  else match toy_find path w with
       | Some f =>
           match toy_find (toy_path (d, f.1.2, f.2)) w with
           | Some _ => (w, Raise toy_exists)
           | None =>
               (mkToy (toy_dirs w)
                      (List.filter
                         (fun g => negb (String.eqb (toy_path g) path))
                         (toy_files w) ++ [(d, f.1.2, f.2)])
                      (toy_clock w) false, Ok ())
           end
       | None => (w, Raise toy_missing)
       end.

Definition toy_os : Os := {|
  world := toy_world;
  float := nat;
  time_time w :=
    (mkToy (toy_dirs w) (toy_files w) (S (toy_clock w)) (toy_locked w),
     S (toy_clock w));
  fsub := Nat.sub;
  truthy t := negb (Nat.eqb t 0);
  zero := 0;
  format_2f _ := "0.00";
  abspath := toy_abspath;
  expanduser := toy_expanduser;
  basename := toy_basename_from "";
  join a b := a +:+ "/" +:+ b;
  isdir d w := existsb (String.eqb d) (toy_dirs w);
  isfile p w := match toy_find p w with Some _ => true | None => false end;
  glob pattern w :=
    Ok (toy_path <$>
          List.filter
            (fun f => String.eqb (f.1.1 +:+ "/*." +:+ f.2) pattern)
            (toy_files w));
  makedirs := toy_makedirs;
  copy2 := toy_copy2;
  move := toy_move
|}.

End OrganizerModel.

(** ** Vocabulary of further properties of the parser *)
Module ParserMore.
Import Etl.

(** A line the loop passes over: blank, or a comment. *)
Definition ignorable (line : string) : bool :=
  Py.is_empty (Py.strip line) || Py.startswith (Py.strip line) "#".

(** The group [n] is set by every match of [r]: it is not inside an
    optional part. *)
Fixpoint binds (n : nat) (r : Re.regex) : bool :=
  match r with
  | Re.Grp m r' => Nat.eqb m n || binds n r'
  | Re.Cat r1 r2 => binds n r1 || binds n r2
  | _ => false
  end.

(** The exceptions of indexing a dict, or what is no dict. *)
Definition parse_error (e : exn) : Prop :=
  (exists k, e = KeyError k) \/ e = TypeError.

End ParserMore.

(** ** Vocabulary of further properties of the organizer *)
Module OrganizerMore.
Import ImportSim.

Section Invariants.
Context `{os : Os}.

(** A method body that keeps the property [Q] of [self] and the world,
    whether it returns or raises. *)
Definition invariant {A} (Q : ImportSimulator * world -> Prop) (c : M A)
    : Prop :=
  forall s, Q s -> Q (c s).1.

End Invariants.

End OrganizerMore.

(** * Properties *)

Import Etl ParserModel.

(** ** The loop of [parse] *)

Lemma for_lines_app (l1 l2 : list string) (st : parser * pyval) :
  for_lines (l1 ++ l2) st = for_lines l1 st ≫= for_lines l2.
Proof.
  revert st. induction l1 as [|l l1 IH]; intros st; simpl; [done|].
  destruct (loop_body l st) as [st'|e]; simpl; [apply IH | done].
Qed.

Lemma end_is_no_subsection : Re.match_ Re.subsection_re "end" = None.
Proof. vm_compute. reflexivity. Qed.

Lemma loop_body_end (st : parser * pyval) (line : string) :
  Py.strip line = "end" ->
  loop_body line st = Ok (close_subsection st).
Proof.
  intros H. unfold loop_body. rewrite H.
  change (Py.is_empty "end") with false.
  change (Py.startswith "end" "#") with false.
  cbv iota. rewrite end_is_no_subsection.
  change (String.eqb "end" "end") with true. reflexivity.
Qed.

Lemma loop_body_opens (st : parser * pyval) (line name : string) :
  opens line name -> loop_body line st = open_subsection name st.
Proof.
  intros (Hne & Hc & m & Hm & Hg). unfold loop_body.
  rewrite Hne, Hc, Hm, Hg. reflexivity.
Qed.


Lemma loop_body_sets line key value ty st :
  sets line key value ty -> loop_body line st = set_parameter key value ty st.
Proof.
  intros (Hne & Hc & Hs & He & m & Hm & Hk & Hv & Hty). unfold loop_body.
  rewrite Hne, Hc, Hs, Hm, Hk, Hv, Hty.
  by destruct (String.eqb_spec (Py.strip line) "end").
Qed.

Lemma set_parameter_in_dict key value ty self a d :
  store self !! a = Some d ->
  set_parameter key value ty (self, VRef a)
  = Ok (with_store
          (<[a := dict_set key (VRef (List.length (store self))) d]>
             (store self ++ [[("value", VStr value); ("type", ty)]]))
          self,
        VRef a).
Proof.
  intros Ha. unfold set_parameter, alloc, setitem.
  by rewrite (lookup_app_l_Some _ _ _ _ Ha).
Qed.






(** The bottom of [current_section :: section_stack] is the root dict
    all along. *)
Lemma open_subsection_rooted name st st' :
  rooted st -> open_subsection name st = Ok st' -> rooted st'.
Proof.
  destruct st as [[h out p stk] cur]. unfold rooted, open_subsection; simpl.
  intros Hr H.
  destruct (not_in_parameters _ _) as [fresh|]; simpl in H; [|done].
  destruct (if fresh then _ else _) as [h'|]; simpl in H; [|done].
  destruct (getitem h' cur name) as [v|]; simpl in H; [|done].
  injection H as <-. simpl. exact Hr.
Qed.

Lemma loop_body_rooted line st st' :
  rooted st -> loop_body line st = Ok st' -> rooted st'.
Proof.
  intros Hr. unfold loop_body.
  destruct (Py.is_empty _); [congruence|].
  destruct (Py.startswith _ _); [congruence|].
  destruct (Re.match_ Re.subsection_re _) as [m|].
  - destruct (group_strip 1 m) as [name|e]; simpl; [|done].
    by apply open_subsection_rooted.
  - destruct (String.eqb _ _).
    + intros [= <-]. destruct st as [[h out p [|top stk]] cur]; [done|].
      exact Hr.
    + destruct (Re.match_ Re.set_re _) as [m|]; [|by intros [= <-]].
      destruct (group_strip 1 m) as [key|e]; simpl; [|done].
      destruct (group_strip 2 m) as [value|e]; simpl; [|done].
      destruct st as [[h out p stk] cur].
      unfold set_parameter; simpl.
      destruct (setitem _ cur key _); simpl; [|done].
      by intros [= <-].
Qed.

Lemma for_lines_rooted lines st st' :
  rooted st -> for_lines lines st = Ok st' -> rooted st'.
Proof.
  revert st. induction lines as [|l ls IH]; intros st Hr; simpl.
  - by intros [= <-].
  - destruct (loop_body l st) as [st1|] eqn:H1; simpl; [|done].
    apply IH. by eapply loop_body_rooted.
Qed.

Lemma init_rooted h : rooted (init h, VRef (parameters (init h))).
Proof. reflexivity. Qed.

(** C10: a [subsection <name>] line met while [name] is a key of the
    root dict but not of the dict that is the current section raises
    [KeyError]: line 41 looks [name] up in [self.parameters], line 44
    indexes [current_section].  The exception leaves the loop, so the
    lines after it are not read. *)
Theorem subsection_known_at_root_only_raises_KeyError
    (st0 : parser * pyval) (pre rest : list string) (line name : string)
    (self : parser) (a : nat) (root d : pydict) :
  for_lines pre st0 = Ok (self, VRef a) ->
  opens line name ->
  store self !! parameters self = Some root ->
  dict_mem name root = true ->
  store self !! a = Some d ->
  dict_mem name d = false ->
  loop_body line (self, VRef a) = Raise (KeyError name) /\
  for_lines (pre ++ line :: rest) st0 = Raise (KeyError name).
Proof.
  intros Hpre Hopen Hroot Hin Hcur Hnot.
  assert (loop_body line (self, VRef a) = Raise (KeyError name)) as Hstep.
  { rewrite (loop_body_opens _ _ _ Hopen).
    unfold open_subsection, not_in_parameters. rewrite Hroot, Hin. simpl.
    rewrite Hcur. unfold dict_mem in Hnot.
    destruct (dict_get name d); [done|reflexivity]. }
  split; [exact Hstep|].
  rewrite for_lines_app, Hpre. simpl. by rewrite Hstep.
Qed.

Lemma subsection_known_at_root_only_raises_KeyError_witness :
  for_lines ["subsection A"] (init [], VRef 0)
    = Ok (mkParser [[("A", VRef 1)]; []] [] 0 [VRef 0], VRef 1) /\
  opens "subsection A" "A" /\
  loop_body "subsection A"
    (mkParser [[("A", VRef 1)]; []] [] 0 [VRef 0], VRef 1)
    = Raise (KeyError "A") /\
  for_lines (["subsection A"] ++ "subsection A" :: ["set x = 1"])
    (init [], VRef 0) = Raise (KeyError "A").
Proof.
  assert (opens "subsection A" "A") as Hopen.
  { repeat split. exists [(1, "A")]. split; vm_compute; reflexivity. }
  assert (for_lines ["subsection A"] (init [], VRef 0)
    = Ok (mkParser [[("A", VRef 1)]; []] [] 0 [VRef 0], VRef 1)) as Hpre
    by (vm_compute; reflexivity).
  split; [exact Hpre|]. split; [exact Hopen|].
  apply (subsection_known_at_root_only_raises_KeyError
           (init [], VRef 0) ["subsection A"] ["set x = 1"]
           "subsection A" "A" _ 1 [("A", VRef 1)] [] Hpre Hopen);
    reflexivity.
Defined.



(** ** The parser does not depend on where its dicts are in the store *)

Lemma dict_get_shift n k d :
  dict_get k (shift_dict n d) = shift_val n <$> dict_get k d.
Proof.
  induction d as [|[k' v] d IH]; simpl; [done|].
  destruct (String.eqb k' k); [done|exact IH].
Qed.

Lemma dict_mem_shift n k d : dict_mem k (shift_dict n d) = dict_mem k d.
Proof.
  unfold dict_mem. rewrite dict_get_shift. by destruct (dict_get k d).
Qed.

Lemma dict_set_shift n k v d :
  dict_set k (shift_val n v) (shift_dict n d) = shift_dict n (dict_set k v d).
Proof.
  induction d as [|[k' v'] d IH]; simpl; [done|].
  destruct (String.eqb k' k); simpl; [done|]. by rewrite IH.
Qed.

Lemma lookup_shift (h0 h : heap) a :
  (h0 ++ (shift_dict (List.length h0) <$> h)) !! (List.length h0 + a)
  = shift_dict (List.length h0) <$> h !! a.
Proof.
  rewrite lookup_app_r by lia.
  replace (List.length h0 + a - List.length h0) with a by lia.
  apply list_lookup_fmap.
Qed.

Lemma getitem_shift (h0 h : heap) cur k :
  getitem (h0 ++ (shift_dict (List.length h0) <$> h))
          (shift_val (List.length h0) cur) k
  = shift_val (List.length h0) <$> getitem h cur k.
Proof.
  destruct cur as [| |a]; simpl; try done.
  rewrite lookup_shift. destruct (h !! a) as [d|]; simpl; [|done].
  rewrite dict_get_shift. by destruct (dict_get k d).
Qed.

Lemma setitem_shift (h0 h : heap) cur k v :
  setitem (h0 ++ (shift_dict (List.length h0) <$> h))
          (shift_val (List.length h0) cur) k (shift_val (List.length h0) v)
  = (fun h' => h0 ++ (shift_dict (List.length h0) <$> h')) <$> setitem h cur k v.
Proof.
  destruct cur as [| |a]; simpl; try done.
  rewrite lookup_shift. destruct (h !! a) as [d|]; simpl; [|done]. 
  by rewrite insert_app_r, list_fmap_insert, dict_set_shift.
Qed.

Lemma alloc_shift (h0 h : heap) d :
  alloc (shift_dict (List.length h0) d)
        (h0 ++ (shift_dict (List.length h0) <$> h))
  = (h0 ++ (shift_dict (List.length h0) <$> (alloc d h).1),
     shift_val (List.length h0) (alloc d h).2).
Proof.
  unfold alloc; simpl.
  by rewrite fmap_app, app_assoc, length_app, length_fmap.
Qed.

Lemma open_subsection_shift h0 name st :
  open_subsection name (shift_state h0 st)
  = shift_state h0 <$> open_subsection name st.
Proof.
  destruct st as [[h out p stk] cur].
  unfold open_subsection, not_in_parameters, shift_state, shift_parser.
  cbn [store parameters section_stack stdout fst snd].
  rewrite lookup_shift. destruct (h !! p) as [root|]; [|done].
  cbn [fmap option_fmap option_map mbind res_bind].
  rewrite dict_mem_shift. destruct (negb (dict_mem name root)).
  - pose proof (alloc_shift h0 h []) as Ha. cbn [shift_dict fmap list_fmap] in Ha.
    rewrite Ha. cbn [alloc fst snd]. rewrite setitem_shift.
    destruct (setitem (h ++ [[]]) cur name _) as [h'|e]; [|done].
    cbn [fmap res_fmap mbind res_bind]. rewrite getitem_shift.
    by destruct (getitem h' cur name).
  - cbn [mbind res_bind]. rewrite getitem_shift.
    by destruct (getitem h cur name).
Qed.

Lemma set_parameter_shift h0 key value ty st :
  set_parameter key value (shift_val (List.length h0) ty) (shift_state h0 st)
  = shift_state h0 <$> set_parameter key value ty st.
Proof.
  destruct st as [[h out p stk] cur].
  unfold set_parameter, shift_state, shift_parser.
  cbn [store parameters section_stack stdout fst snd].
  pose proof (alloc_shift h0 h [("value", VStr value); ("type", ty)]) as Ha.
  change (shift_dict (List.length h0) [("value", VStr value); ("type", ty)])
    with [("value", VStr value); ("type", shift_val (List.length h0) ty)]
    in Ha.
  rewrite Ha. cbn [alloc fst snd]. rewrite setitem_shift.
  by destruct (setitem _ cur key _).
Qed.

Lemma value_type_of_shift n m :
  shift_val n (value_type_of m) = value_type_of m.
Proof. unfold value_type_of. by destruct (group 3 m) as [[|c g]|]. Qed.

Lemma loop_body_shift h0 line st :
  loop_body line (shift_state h0 st) = shift_state h0 <$> loop_body line st.
Proof.
  unfold loop_body.
  destruct (Py.is_empty _); [done|].
  destruct (Py.startswith _ _); [done|].
  destruct (Re.match_ Re.subsection_re _) as [m|].
  - destruct (group_strip 1 m) as [name|e]; [|done].
    apply open_subsection_shift.
  - destruct (String.eqb _ _).
    + by destruct st as [[h out p [|top stk]] cur].
    + destruct (Re.match_ Re.set_re _) as [m|]; [|done].
      destruct (group_strip 1 m) as [key|e]; [|done].
      destruct (group_strip 2 m) as [value|e]; [|done].
      cbn [mbind res_bind].
      rewrite <- (value_type_of_shift (List.length h0) m) at 1.
      apply set_parameter_shift.
Qed.

Lemma for_lines_shift h0 lines st :
  for_lines lines (shift_state h0 st) = shift_state h0 <$> for_lines lines st.
Proof.
  revert st. induction lines as [|l ls IH]; intros st; [done|].
  simpl. rewrite loop_body_shift.
  destruct (loop_body l st) as [st'|e]; [|done]. apply IH.
Qed.

Lemma reify_shift (h0 h : heap) fuel v :
  reify fuel (h0 ++ (shift_dict (List.length h0) <$> h))
        (shift_val (List.length h0) v)
  = reify fuel h v.
Proof.
  revert v. induction fuel as [|fuel IH]; intros [| |a]; simpl; try done.
  rewrite lookup_shift. destruct (h !! a) as [d|]; simpl; [|done].
  f_equal. induction d as [|[k v] d IHd]; simpl; [done|].
  by rewrite IH, IHd.
Qed.

Lemma parameters_tree_shift h0 self :
  parameters_tree (shift_parser h0 self) = parameters_tree self.
Proof.
  unfold parameters_tree, shift_parser; simpl.
  rewrite length_app, length_fmap.
  replace (List.length h0 + List.length (store self)
           - (List.length h0 + parameters self))
    with (List.length (store self) - parameters self) by lia.
  apply (reify_shift h0 (store self) _ (VRef (parameters self))).
Qed.

Lemma init_shift h0 :
  (init h0, VRef (parameters (init h0)))
  = shift_state h0 (init [], VRef (parameters (init []))).
Proof.
  unfold shift_state, shift_parser, init; simpl.
  by rewrite Nat.add_0_r.
Qed.

(** A parser made in a store that already holds [h] arrives at the
    same tree, or raises the same exception, as one made in an empty
    store. *)
Lemma parse_lines_any_store h lines :
  result_tree (parse_lines h lines) = result_tree (parse_lines [] lines).
Proof.
  unfold parse_lines. rewrite init_shift, for_lines_shift.
  destruct (for_lines lines _) as [[self cur]|e]; [|done].
  simpl. f_equal. apply parameters_tree_shift.
Qed.

Lemma parse_opened fs prm_file text h :
  fs prm_file = Some text ->
  parse fs prm_file (init h) = parse_lines h (readlines text).
Proof. intros H. unfold parse, parse_lines. by rewrite H. Qed.

(** C8: two parsers, each newly made, that parse files of the same
    content arrive at the same tree or raise the same exception,
    whatever the paths, the other files, and the objects that were in
    the store when each parser was made. *)
Theorem parse_is_deterministic
    (fs1 fs2 : filesystem) (path1 path2 text : string) (h1 h2 : heap) :
  fs1 path1 = Some text ->
  fs2 path2 = Some text ->
  result_tree (parse fs1 path1 (init h1))
  = result_tree (parse fs2 path2 (init h2)).
Proof.
  intros H1 H2.
  rewrite (parse_opened _ _ _ _ H1), (parse_opened _ _ _ _ H2).
  rewrite (parse_lines_any_store h1), (parse_lines_any_store h2).
  reflexivity.
Qed.

Lemma parse_is_deterministic_witness :
  let text := "subsection A" +:+ Py.nl +:+ "set x = 1, int" +:+ Py.nl
              +:+ "end" +:+ Py.nl in
  let fs1 : filesystem := fun p => if String.eqb p "a.prm" then Some text else None in
  let fs2 : filesystem := fun p => Some text in
  fs1 "a.prm" = Some text /\ fs2 "b.prm" = Some text /\
  result_tree (parse fs1 "a.prm" (init []))
  = result_tree (parse fs2 "b.prm" (init [[("k", VRef 7)]; []])).
Proof.
  intros text fs1 fs2.
  split; [reflexivity|]. split; [reflexivity|].
  apply (parse_is_deterministic fs1 fs2 "a.prm" "b.prm" text); reflexivity.
Defined.

(** C5: an [end] line read while the section stack is empty raises
    nothing and leaves the parser and the current section, which is
    the root dict, as they are; the lines after it are parsed as if it
    were not there.  So [end / set x = 1] gives a tree with the leaf
    [x] at the root. *)
Theorem end_with_empty_stack_is_noop :
  (forall (h : heap) (pre rest : list string) (line : string)
          (self : parser) (cur : pyval),
     for_lines pre (init h, VRef (parameters (init h))) = Ok (self, cur) ->
     section_stack self = [] ->
     Py.strip line = "end" ->
     cur = VRef (parameters self) /\
     loop_body line (self, cur) = Ok (self, cur) /\
     for_lines (pre ++ line :: rest) (init h, VRef (parameters (init h)))
     = for_lines (pre ++ rest) (init h, VRef (parameters (init h)))) /\
  (forall h : heap,
     result_tree (parse_lines h ["end"; "set x = 1"])
     = Ok (TDict [("x", leaf "1" TNone)])).
Proof.
  split.
  - intros h pre rest line self cur Hpre Hstk Hline.
    assert (loop_body line (self, cur) = Ok (self, cur)) as Hstep.
    { rewrite (loop_body_end _ _ Hline). unfold close_subsection.
      by rewrite Hstk. }
    split; [|split; [exact Hstep|]].
    + pose proof (for_lines_rooted _ _ _ (init_rooted h) Hpre) as Hr.
      unfold rooted in Hr. simpl in Hr. rewrite Hstk in Hr.
      by injection Hr.
    + rewrite !for_lines_app, Hpre. simpl. by rewrite Hstep.
  - intros h. rewrite parse_lines_any_store. vm_compute. reflexivity.
Qed.

Lemma end_with_empty_stack_is_noop_witness :
  for_lines ["subsection A"; "end"] (init [], VRef 0)
    = Ok (mkParser [[("A", VRef 1)]; []] [] 0 [], VRef 0) /\
  Py.strip ("  end" +:+ Py.nl) = "end" /\
  for_lines (["subsection A"; "end"] ++ ("  end" +:+ Py.nl) :: ["set x = 1"]) (init [], VRef 0)
  = for_lines (["subsection A"; "end"] ++ ["set x = 1"]) (init [], VRef 0).
Proof.
  assert (for_lines ["subsection A"; "end"] (init [], VRef 0)
    = Ok (mkParser [[("A", VRef 1)]; []] [] 0 [], VRef 0)) as Hpre
    by (vm_compute; reflexivity).
  assert (Py.strip ("  end" +:+ Py.nl) = "end") as Hline by (vm_compute; reflexivity).
  split; [exact Hpre|]. split; [exact Hline|].
  apply (proj1 end_with_empty_stack_is_noop [] ["subsection A"; "end"]
           ["set x = 1"] _ _ _ Hpre eq_refl Hline).
Defined.

(** ** What the code does where it departs from its description *)

(** C1: re-opened at the root, a subsection keeps what it had:
    [subsection A / set x=1 / end / subsection A / set y=2 / end] gives
    [A] with [x] and [y].  Re-opened inside another subsection it is
    replaced by an empty one, because line 41 asks whether the name is
    a key of [self.parameters], not of [current_section]: the same
    lines between [subsection B] and [end] give [B.A] with [y] only. *)
Theorem reopened_subsection_merges_at_root_only :
  (forall h : heap,
     result_tree (parse_lines h
       ["subsection A"; "set x=1"; "end"; "subsection A"; "set y=2"; "end"])
     = Ok (TDict [("A", TDict [("x", leaf "1" TNone);
                               ("y", leaf "2" TNone)])])) /\
  (forall h : heap,
     result_tree (parse_lines h
       ["subsection B";
        "subsection A"; "set x=1"; "end"; "subsection A"; "set y=2"; "end";
        "end"])
     = Ok (TDict [("B", TDict [("A", TDict [("y", leaf "2" TNone)])])])).
Proof.
  split; intros h; rewrite parse_lines_any_store; vm_compute; reflexivity.
Qed.

(** C3: a path that cannot be opened raises the error of [open]; an
    empty file leaves the empty tree; but a file that can be opened may
    still end the parse with an exception: [subsection A] twice raises
    [KeyError], and a subsection opened on a leaf raises [TypeError]. *)
Theorem parse_of_an_opened_file_may_raise :
  (forall (h : heap) (path : string),
     parse (fun _ => None) path (init h) = Raise OSError) /\
  (forall (h : heap) (path : string),
     result_tree (parse (fun _ => Some "") path (init h)) = Ok (TDict [])) /\
  (forall (h : heap) (path : string),
     result_tree
       (parse (fun _ => Some ("subsection A" +:+ Py.nl +:+
                              "subsection A" +:+ Py.nl)) path (init h))
     = Raise (KeyError "A")) /\
  (forall (h : heap) (path : string),
     result_tree
       (parse (fun _ => Some ("set value = 2" +:+ Py.nl +:+
                              "set a = 1" +:+ Py.nl +:+
                              "subsection a" +:+ Py.nl +:+
                              "subsection value" +:+ Py.nl +:+
                              "set x = 3" +:+ Py.nl)) path (init h))
     = Raise TypeError).
Proof.
  split; [reflexivity|].
  repeat split; intros h path;
    (erewrite parse_opened by reflexivity);
    rewrite parse_lines_any_store; vm_compute; reflexivity.
Qed.

(** C4: with [description.txt] holding "desc text" and no
    [observations.txt], [to_params] returns the one-entry dict
    [{"c:Calculation": calculation}]: it has no [description] and no
    [observations]. *)
Theorem to_params_returns_the_calculation_only :
  let fs : filesystem := fun p =>
    if String.eqb p "run1/description.txt" then Some "desc text" else None in
  to_params fs (init []) "calc-1" "run1"
    = Ok [("c:Calculation", VStr "calc-1")] /\
  (dict_get "description" <$> to_params fs (init []) "calc-1" "run1")
    = Ok None /\
  (dict_get "observations" <$> to_params fs (init []) "calc-1" "run1")
    = Ok None.
Proof. repeat split; vm_compute; reflexivity. Qed.

(** C2: a second record for a file the first call made.  When the
    columns of the file are not among those of the record the call
    raises and writes nothing.  Otherwise it does not append the
    record: the sheet named by [calculation] is looked up in the
    workbook, whose only sheet is [Sheet1], so the call raises
    [KeyError]; and when [calculation] is [Sheet1] the rows written
    after the existing ones are those of [existing_data_frame], the
    rows already there. *)
Theorem add_to_excel_does_not_append_the_record :
  let first := [("calculation", "c1"); ("x", "1")] in
  let second := [("calculation", "c2"); ("x", "2")] in
  let file_of (r : res excel_files) :=
    match r with Ok xl => xl "log.xlsx" | Raise _ => None end in
  let xl1 := write_file "log.xlsx" (to_excel_new (DataFrame_of first))
                        (fun _ => None) in
  file_of (add_to_excel (fun _ => None) first "c1" "log.xlsx")
    = Some [("Sheet1", [["calculation"; "x"]; ["c1"; "1"]])] /\
  file_of (add_to_excel xl1 second "c2" "log.xlsx") = None /\
  add_to_excel xl1 second "c2" "log.xlsx" = Raise (KeyError "c2") /\
  file_of (add_to_excel xl1 second "Sheet1" "log.xlsx")
    = Some [("Sheet1", [["calculation"; "x"]; ["c1"; "1"]; ["c1"; "1"]])] /\
  add_to_excel xl1 [("x", "2")] "Sheet1" "log.xlsx"
    = Raise (PyException
        "Existing excel file does not have the same columns as the new data").
Proof.
  intros first second file_of xl1.
  split; [vm_compute; reflexivity|].
  split; [vm_compute; reflexivity|].
  split; [vm_compute; reflexivity|].
  split; vm_compute; reflexivity.
Qed.

(** ** The organizer *)
Section Organizer.
Import ImportSim OrganizerModel.
Context `{os : Os}.

Lemma same_run_refl self : same_run self self.
Proof. by repeat split. Qed.

Lemma same_run_trans s1 s2 s3 :
  same_run s1 s2 -> same_run s2 s3 -> same_run s1 s3.
Proof. intros (?&?&?) (?&?&?). repeat split; congruence. Qed.

Lemma keeps_ret {A} (a : A) : keeps (mret a).
Proof. intros s. apply same_run_refl. Qed.

Lemma keeps_raise {A} e : keeps (@raise _ A e).
Proof. intros s. apply same_run_refl. Qed.

Lemma keeps_ask {A} (f : world -> A) : keeps (ask f).
Proof. intros s. apply same_run_refl. Qed.

Lemma keeps_self_get {A} (f : ImportSimulator -> A) : keeps (self_get f).
Proof. intros s. apply same_run_refl. Qed.

Lemma keeps_read {A} (f : world -> res A) : keeps (read f).
Proof. intros s. apply same_run_refl. Qed.

Lemma keeps_call {A} (f : world -> world * res A) : keeps (call f).
Proof.
  intros s. unfold call. destruct (f s.2) as [w r]. apply same_run_refl.
Qed.

Lemma keeps_bind {A B} (c : M A) (k : A -> M B) :
  keeps c -> (forall a, keeps (k a)) -> keeps (c ≫= k).
Proof.
  intros Hc Hk s. unfold mbind, M_bind. specialize (Hc s).
  destruct (c s) as [s1 [a|e]]; simpl in *; [|exact Hc].
  eapply same_run_trans; [exact Hc|apply Hk].
Qed.
Lemma keeps_attr f : keeps (attr f).
Proof.
  apply keeps_bind; [apply keeps_self_get|].
  intros [v|]; [apply keeps_ret|apply keeps_raise].
Qed.

Lemma keeps_makedirs_each ds : keeps (makedirs_each ds).
Proof.
  induction ds as [|d ds IH]; [apply keeps_ret|].
  apply keeps_bind; [apply keeps_call|]. intros _. exact IH.
Qed.

Lemma keeps_transfer_each files destination copy :
  keeps (transfer_each files destination copy).
Proof.
  induction files as [|f files IH]; [apply keeps_ret|].
  apply keeps_bind; [destruct copy; apply keeps_call|]. intros _. exact IH.
Qed.

Lemma keeps_for_patterns patterns destination copy found :
  keeps (for_patterns patterns destination copy found).
Proof.
  revert found. induction patterns as [|p ps IH]; intros found;
    [apply keeps_ret|].
  apply keeps_bind; [apply keeps_attr|]. intros src.
  apply keeps_bind; [apply keeps_read|]. intros [|f fs]; [apply IH|].
  apply keeps_bind; [apply keeps_transfer_each|]. intros _. apply IH.
Qed.

Lemma keeps_handle_special_files : keeps _handle_special_files.
Proof.
  apply keeps_bind; [apply keeps_attr|]. intros src.
  apply keeps_bind; [apply keeps_ask|]. intros present.
  apply keeps_bind.
  { destruct present; [|apply keeps_ret].
    apply keeps_bind; [apply keeps_attr|]. intros ?. apply keeps_call. }
  intros _. apply keeps_bind; [apply keeps_attr|]. intros src'.
  apply keeps_bind; [apply keeps_ask|]. intros [|]; [|apply keeps_ret].
  apply keeps_bind; [apply keeps_attr|]. intros ?. apply keeps_call.
Qed.

Lemma keeps_organize_files : keeps _organize_files.
Proof.
  apply keeps_bind; [apply keeps_attr|]. intros code.
  apply keeps_bind; [apply keeps_for_patterns|]. intros _.
  apply keeps_bind; [apply keeps_attr|]. intros output.
  apply keeps_bind; [apply keeps_self_get|]. intros copy.
  apply keeps_bind; [apply keeps_for_patterns|]. intros _.
  apply keeps_bind; [apply keeps_attr|]. intros dst.
  apply keeps_bind; [apply keeps_for_patterns|]. intros _.
  apply keeps_handle_special_files.
Qed.

Lemma keeps_create_directory_structure : keeps _create_directory_structure.
Proof.
  apply keeps_bind; [apply keeps_attr|]. intros dst.
  apply keeps_bind; [apply keeps_call|]. intros _.
  apply keeps_bind; [by intros s|]. intros _.
  apply keeps_makedirs_each.
Qed.

(** [_create_result] returns, with the flag and the message it was
    given and the two directories of [self]. *)
Lemma create_result_returns ok msg (s : ImportSimulator * world) :
  exists w' r,
    _create_result ok msg s = ((s.1, w'), Ok r) /\
    success r = ok /\ message r = msg /\
    r_src_dir r = src_dir s.1 /\ r_dst_dir r = dst_dir s.1.
Proof.
  destruct s as [self w]. unfold _create_result.
  unfold mbind, M_bind, self_get, call, mret, M_ret; simpl.
  destruct (start_time self) as [t0|]; simpl.
  - destruct (truthy t0); simpl.
    + destruct (time_time w) as [w' t]; simpl. by eexists _, _.
    + by eexists _, _.
  - by eexists _, _.
Qed.
Lemma organize_files_tail_returns (s : ImportSimulator * world) t0 :
  start_time s.1 = Some t0 ->
  exists s' r,
    organize_files_tail s = (s', Ok r) /\
    r_src_dir r = src_dir s.1 /\ r_dst_dir r = dst_dir s.1 /\
    match (_create_directory_structure s).2 with
    | Raise e =>
        success r = false /\
        message r = "Failed to create directory structure: " +:+ exc_str e
    | Ok _ =>
        match (_organize_files (_create_directory_structure s).1).2 with
        | Raise e =>
            success r = false /\
            message r = "Failed to organize files: " +:+ exc_str e
        | Ok _ =>
            success r = true /\
            exists t, message r = "File organization completed in "
                                  +:+ format_2f t +:+ " seconds."
        end
    end.
Proof.
  intros Ht0.
  cbv [organize_files_tail try mbind M_bind mret M_ret raise self_get call].
  pose proof (keeps_create_directory_structure s) as (Hs1 & Hd1 & Ht1).
  destruct (_create_directory_structure s) as [s1 [[]|e]]; simpl in *.
  - pose proof (keeps_organize_files s1) as (Hs2 & Hd2 & Ht2).
    destruct (_organize_files s1) as [s2 [[]|e]]; simpl in *.
    + destruct (time_time s2.2) as [w t] eqn:Hw; simpl.
      rewrite Ht2, Ht1, Ht0.
      destruct (create_result_returns true
        ("File organization completed in " +:+ format_2f (fsub t t0)
         +:+ " seconds.") (s2.1, w)) as (w' & r & -> & Hok & Hmsg & Hsrc & Hdst).
      simpl in *. exists (s2.1, w'), r.
      split; [done|]. split; [congruence|]. split; [congruence|].
      split; [done|]. by eexists.
    + destruct (create_result_returns false
        ("Failed to organize files: " +:+ exc_str e) s2)
        as (w' & r & -> & Hok & Hmsg & Hsrc & Hdst).
      exists (s2.1, w'), r.
      split; [done|]. split; [congruence|]. split; [congruence|]. done.
  - destruct (create_result_returns false
      ("Failed to create directory structure: " +:+ exc_str e) s1)
      as (w' & r & -> & Hok & Hmsg & Hsrc & Hdst).
    exists (s1.1, w'), r.
    split; [done|]. split; [congruence|]. split; [congruence|]. done.
Qed.

(** Lines 39-48: the state they leave when the path functions return,
    and the exception they let through when one raises. *)
Lemma organize_files_head_runs (self : ImportSimulator) (w : world)
    (src : string) (dst : option string) (copy : bool) :
  match paths src dst (time_time w).1 with
  | Ok (src', dst') =>
      organize_files_head src dst copy (self, w)
      = ((prepared self (time_time w).2 src' dst' copy, (time_time w).1),
         Ok ())
  | Raise e =>
      exists self',
        organize_files_head src dst copy (self, w)
        = ((self', (time_time w).1), Raise e)
  end.
Proof.
  cbv [organize_files_head paths attr mbind M_bind res_bind mret M_ret raise
       self_get self_set call read].
  simpl. destruct (time_time w) as [w1 t0]; simpl.
  destruct (expanduser src w1) as [p|e]; simpl; [|by eexists].
  destruct (abspath p w1) as [src'|e]; simpl; [|by eexists].
  destruct dst as [d|]; simpl.
  - destruct (expanduser d w1) as [q|e]; simpl; [|by eexists].
    destruct (abspath q w1) as [dst'|e]; simpl; [done|by eexists].
  - destruct (abspath (join "." (basename src')) w1) as [dst'|e]; simpl;
      [done|by eexists].
Qed.

End Organizer.


(** ** The pattern of [set] lines *)

Lemma nws_not_newline c : Re.nws c = true -> Ascii.eqb c Py.newline = false.
Proof.
  intros H. destruct (Ascii.eqb_spec c Py.newline) as [->|]; [|done].
  vm_compute in H. discriminate.
Qed.

Lemma nws_not_ws c : Re.nws c = true -> Re.ws c = false.
Proof. unfold Re.nws, Re.ws. by destruct (Py.is_space c). Qed.

Lemma ws_is_not c x : Re.ws x = false -> Re.ws c = true -> Ascii.eqb c x = false.
Proof.
  intros Hx Hc. destruct (Ascii.eqb_spec c x) as [->|]; [|done]. congruence.
Qed.

Lemma append_cons c (a b : string) : String c a +:+ b = String c (a +:+ b).
Proof. reflexivity. Qed.

Lemma append_nil (b : string) : "" +:+ b = b.
Proof. reflexivity. Qed.

Lemma append_nil_r (s : string) : s +:+ "" = s.
Proof. induction s as [|c s IH]; [done|]. by rewrite append_cons, IH. Qed.

Lemma length_append (a b : string) :
  String.length (a +:+ b) = String.length a + String.length b.
Proof. induction a as [|c a IH]; simpl; [done|]. by rewrite IH. Qed.

Lemma take_str_append (a b : string) :
  Py.take_str (String.length a) (a +:+ b) = a.
Proof. induction a as [|c a IH]; simpl; [by destruct b|]. by rewrite IH. Qed.

Lemma consumed_append (a b : string) : Re.consumed (a +:+ b) b = a.
Proof.
  unfold Re.consumed. rewrite length_append.
  replace (String.length a + String.length b - String.length b)
    with (String.length a) by lia.
  apply take_str_append.
Qed.

Lemma consumed_all (s : string) : Re.consumed s "" = s.
Proof.
  unfold Re.consumed. simpl. rewrite Nat.sub_0_r.
  induction s as [|c s IH]; simpl; [done|]. by rewrite IH.
Qed.

Lemma all_chars_impl (p q : ascii -> bool) (s : string) :
  (forall c, p c = true -> q c = true) ->
  all_chars p s = true -> all_chars q s = true.
Proof.
  intros Hpq. induction s as [|c s IH]; simpl; [done|].
  intros [Hc Hs]%andb_prop. by rewrite (Hpq _ Hc), IH.
Qed.

Lemma ends_in_tail (p : ascii -> bool) c (s : string) :
  ends_in p (String c s) = true -> s = "" \/ ends_in p s = true.
Proof. destruct s; [by left | by right]. Qed.

(** *** Greedy runs *)

Lemma rep_greedy_stop {R} cls c s (k : string -> option R) :
  cls c = false -> Re.rep_greedy cls (String c s) k = k (String c s).
Proof. intros H. simpl. by rewrite H. Qed.

Lemma rep_greedy_more {R} cls c s (k : string -> option R) r :
  cls c = true -> Re.rep_greedy cls s k = Some r ->
  Re.rep_greedy cls (String c s) k = Some r.
Proof. intros Hc H. simpl. by rewrite Hc, H. Qed.

(** A greedy run takes the whole of a run of its class when what
    follows the quantifier then matches. *)
Lemma rep_greedy_run {R} cls (w s : string) (k : string -> option R) r :
  all_chars cls w = true ->
  Re.rep_greedy cls s k = Some r ->
  Re.rep_greedy cls (w +:+ s) k = Some r.
Proof.
  intros Hw Hs. induction w as [|c w IH]; [done|].
  simpl in Hw. apply andb_prop in Hw as [Hc Hw].
  rewrite append_cons. apply rep_greedy_more; [done|]. by apply IH.
Qed.

Lemma rep_greedy_to_end {R} cls (w : string) (k : string -> option R) r :
  all_chars cls w = true -> k "" = Some r ->
  Re.rep_greedy cls w k = Some r.
Proof.
  intros Hw Hk. rewrite <- (append_nil_r w). by apply rep_greedy_run.
Qed.

(** A greedy run fails when what follows the quantifier fails on every
    character up to one that ends the run. *)
Lemma rep_greedy_fails {R} (cls bad : ascii -> bool)
    (k : string -> option R) (s rest : string) :
  (forall x t, bad x = true -> k (String x t) = None) ->
  all_chars bad s = true ->
  ends_in (fun c => negb (cls c)) s = true ->
  Re.rep_greedy cls (s +:+ rest) k = None.
Proof.
  intros Hk. induction s as [|x s IH]; [done|].
  intros Hall Hend. simpl in Hall. apply andb_prop in Hall as [Hx Hall].
  rewrite append_cons.
  destruct (ends_in_tail _ _ _ Hend) as [->|Hend'].
  - simpl in Hend. rewrite append_nil, rep_greedy_stop; [by apply Hk|].
    by destruct (cls x).
  - simpl. rewrite (IH Hall Hend'), (Hk _ _ Hx). by destruct (cls x).
Qed.

(** *** Lazy runs *)

Lemma rep_lazy_now {R} cls s (k : string -> option R) r :
  k s = Some r -> Re.rep_lazy cls s k = Some r.
Proof. intros H. destruct s; simpl; by rewrite H. Qed.

Section LazyOverText.
Context {R : Type} (cls bad stop : ascii -> bool) (k : string -> option R).
Hypothesis bad_cls : forall c, bad c = true -> cls c = true.
Hypothesis k_fails : forall s rest,
  Py.is_empty s = false -> all_chars bad s = true -> ends_in stop s = true ->
  k (s +:+ rest) = None.

(** A lazy run steps over a text while what follows the quantifier
    fails on what is left of the text. *)
Lemma rep_lazy_text (s rest : string) :
  all_chars bad s = true -> s = "" \/ ends_in stop s = true ->
  Re.rep_lazy cls (s +:+ rest) k = Re.rep_lazy cls rest k.
Proof.
  induction s as [|c s IH]; [done|].
  intros Hall [|Hend]; [done|].
  rewrite (append_cons c s rest).
  change (Re.rep_lazy cls (String c (s +:+ rest)) k)
    with (Re.orelse (k (String c (s +:+ rest)))
            (if cls c then Re.rep_lazy cls (s +:+ rest) k else None)).
  rewrite <- (append_cons c s rest), (k_fails (String c s) rest) by done.
  simpl in Hall. apply andb_prop in Hall as [Hc Hall].
  rewrite (bad_cls _ Hc). cbn [Re.orelse].
  apply IH; [done|]. by apply (ends_in_tail _ c).
Qed.
End LazyOverText.

(** *** The end of the pattern: [(?:\s*,\s*(\S+))?$] *)

Lemma at_eos_text c (s : string) :
  Re.dot c = true -> Re.at_eos (String c s) = false.
Proof.
  unfold Re.dot, Re.at_eos. intros H.
  destruct (Ascii.eqb c Py.newline); [done|]. by destruct s.
Qed.

(** It fails inside a value: on what is left of a text without a comma. *)
Lemma type_suffix_fails (s rest : string) caps k :
  Py.is_empty s = false ->
  all_chars (fun c => Re.dot c && negb (Ascii.eqb c ",")) s = true ->
  ends_in Re.nws s = true ->
  Re.run Re.type_suffix (s +:+ rest) caps k = None.
Proof.
  intros Hne Hall Hend. unfold Re.type_suffix. cbn [Re.run Re.rep].
  rewrite (rep_greedy_fails Re.ws (fun c => negb (Ascii.eqb c ","))).
  - destruct s as [|c s]; [done|]. rewrite append_cons.
    simpl in Hall. apply andb_prop in Hall as [[Hc _]%andb_prop _].
    cbn [Re.orelse]. by rewrite at_eos_text.
  - intros x t Hx. cbn [Py.strip_prefix]. rewrite Ascii.eqb_sym.
    by destruct (Ascii.eqb x ",").
  - revert Hall. apply all_chars_impl. by intros c [_ ?]%andb_prop.
  - exact Hend.
Qed.

(** At the end of the line it matches without a type. *)
Lemma type_suffix_end caps k : Re.run Re.type_suffix "" caps k = k "" caps.
Proof. reflexivity. Qed.

(** On a comma and a token it matches with the token as group 3. *)
Lemma type_suffix_type (w4 w5 T : string) caps k r :
  blank w4 -> blank w5 -> token T ->
  k "" ((3, T) :: caps) = Some r ->
  Re.run Re.type_suffix (w4 +:+ "," +:+ w5 +:+ T) caps k = Some r.
Proof.
  intros H4 H5 [Hne Hall] Hk. destruct T as [|c T]; [done|].
  simpl in Hall. apply andb_prop in Hall as [Hc Hall].
  unfold Re.type_suffix. cbn [Re.run Re.rep].
  match goal with |- Re.orelse ?x _ = _ => assert (x = Some r) as ->; [|done] end.
  apply rep_greedy_run; [exact H4|].
  rewrite append_cons, append_nil, rep_greedy_stop by reflexivity.
  cbn [Py.strip_prefix]. change (Ascii.eqb "," ",") with true. cbv iota.
  apply rep_greedy_run; [exact H5|].
  rewrite rep_greedy_stop by by apply nws_not_ws.
  rewrite Hc. apply rep_greedy_to_end; [exact Hall|].
  change (Re.at_eos "") with true. cbv iota. by rewrite consumed_all.
Qed.

(** *** The assignment: [\s*=\s*(.+?)] and the end of the pattern *)

(** It fails inside a key: on what is left of a text without [=]. *)
Lemma assignment_fails (s rest : string) caps k :
  all_chars (fun c => Re.dot c && negb (Ascii.eqb c "=")) s = true ->
  ends_in Re.nws s = true ->
  Re.run Re.assignment (s +:+ rest) caps k = None.
Proof.
  intros Hall Hend. unfold Re.assignment. cbn [Re.run Re.rep].
  apply (rep_greedy_fails Re.ws (fun c => negb (Ascii.eqb c "="))).
  - intros x t Hx. cbn [Py.strip_prefix]. rewrite Ascii.eqb_sym.
    by destruct (Ascii.eqb x "=").
  - revert Hall. apply all_chars_impl. by intros c [_ ?]%andb_prop.
  - exact Hend.
Qed.

Lemma text_without_head x c (s : string) :
  text_without x (String c s) ->
  Re.nws c = true /\ Re.dot c = true /\
  all_chars (fun c => Re.dot c && negb (Ascii.eqb c x)) s = true /\
  (s = "" \/ ends_in Re.nws s = true).
Proof.
  intros (Hb & He & Hall). simpl in Hb, Hall.
  apply andb_prop in Hall as [[Hc _]%andb_prop Hall].
  repeat split; [done..|]. by apply (ends_in_tail _ c).
Qed.

(** Group 2 is the value [V] when the end of the pattern matches what
    follows it. *)
Lemma assignment_value (w2 w3 V rest : string) caps k r :
  blank w2 -> blank w3 -> text_without "," V ->
  Re.run Re.type_suffix rest ((2, V) :: caps) k = Some r ->
  Re.run Re.assignment (w2 +:+ "=" +:+ w3 +:+ V +:+ rest) caps k = Some r.
Proof.
  intros H2 H3 HV Hrest. destruct V as [|c V]; [by destruct HV|].
  destruct (text_without_head _ _ _ HV) as (Hc & Hd & HV' & Hend).
  unfold Re.assignment. cbn [Re.run Re.rep].
  apply rep_greedy_run; [exact H2|].
  rewrite append_cons, append_nil, rep_greedy_stop by reflexivity.
  cbn [Py.strip_prefix]. change (Ascii.eqb "=" "=") with true. cbv iota.
  apply rep_greedy_run; [exact H3|].
  rewrite append_cons, rep_greedy_stop by by apply nws_not_ws.
  rewrite Hd.
  rewrite (rep_lazy_text Re.dot
             (fun c => Re.dot c && negb (Ascii.eqb c ",")) Re.nws).
  - apply rep_lazy_now.
    change (String c (V +:+ rest)) with (String c V +:+ rest).
    by rewrite consumed_append.
  - by intros c' [? _]%andb_prop.
  - intros s t Hne Hall He. by apply type_suffix_fails.
  - exact HV'.
  - exact Hend.
Qed.

(** *** The whole pattern *)

(** Group 1 is the key [K] when the assignment matches what follows it. *)
Lemma set_re_key (w1 K rest : string) r :
  Py.is_empty w1 = false -> blank w1 -> text_without "=" K ->
  Re.run Re.assignment rest [(1, K)] (fun _ c => Some c) = Some r ->
  Re.match_ Re.set_re ("set" +:+ w1 +:+ K +:+ rest) = Some r.
Proof.
  intros Hne H1 HK Hrest. destruct K as [|c K]; [by destruct HK|].
  destruct (text_without_head _ _ _ HK) as (Hc & Hd & HK' & Hend).
  destruct w1 as [|x w1]; [done|].
  simpl in H1. apply andb_prop in H1 as [Hx H1].
  unfold Re.match_, Re.set_re. rewrite !append_cons, append_nil.
  cbn [Re.run Re.rep Py.strip_prefix].
  change (Ascii.eqb "s" "s") with true. change (Ascii.eqb "e" "e") with true.
  change (Ascii.eqb "t" "t") with true. cbv iota. rewrite Hx.
  apply rep_greedy_run; [exact H1|].
  rewrite rep_greedy_stop by by apply nws_not_ws.
  rewrite Hd.
  rewrite (rep_lazy_text Re.dot
             (fun c => Re.dot c && negb (Ascii.eqb c "=")) Re.nws).
  - apply rep_lazy_now.
    change (String c (K +:+ rest)) with (String c K +:+ rest).
    by rewrite consumed_append.
  - by intros c' [? _]%andb_prop.
  - intros s t _ Hall He. by apply assignment_fails.
  - exact HK'.
  - exact Hend.
Qed.

Lemma set_re_with_type (w1 K w2 w3 V w4 w5 T : string) :
  Py.is_empty w1 = false -> blank w1 -> blank w2 -> blank w3 ->
  blank w4 -> blank w5 ->
  text_without "=" K -> text_without "," V -> token T ->
  Re.match_ Re.set_re
    ("set" +:+ w1 +:+ K +:+ w2 +:+ "=" +:+ w3 +:+ V +:+ w4 +:+ "," +:+ w5
     +:+ T)
  = Some [(3, T); (2, V); (1, K)].
Proof.
  intros Hne H1 H2 H3 H4 H5 HK HV HT. apply set_re_key; [done..|].
  apply assignment_value; [done..|]. by apply type_suffix_type.
Qed.

Lemma set_re_without_type (w1 K w2 w3 V : string) :
  Py.is_empty w1 = false -> blank w1 -> blank w2 -> blank w3 ->
  text_without "=" K -> text_without "," V ->
  Re.match_ Re.set_re ("set" +:+ w1 +:+ K +:+ w2 +:+ "=" +:+ w3 +:+ V)
  = Some [(2, V); (1, K)].
Proof.
  intros Hne H1 H2 H3 HK HV. apply set_re_key; [done..|].
  rewrite <- (append_nil_r V) at 1. by apply assignment_value.
Qed.

(** *** What the loop does with the match *)

Lemma rstrip_all_nws (t : string) :
  all_chars Re.nws t = true -> Py.rstrip t = t.
Proof.
  induction t as [|c t IH]; simpl; [done|].
  intros [Hc Ht]%andb_prop. rewrite (IH Ht).
  unfold Re.nws in Hc. by destruct (Py.is_space c).
Qed.

Lemma strip_token (s : string) : token s -> Py.strip s = s.
Proof.
  intros [Hne H]. destruct s as [|c s]; [done|].
  unfold Py.strip. pose proof H as H'. simpl in H'.
  apply andb_prop in H' as [Hc _]. simpl Py.lstrip.
  unfold Re.nws in Hc. destruct (Py.is_space c); [done|].
  by apply rstrip_all_nws.
Qed.

Lemma rstrip_ends_in (s : string) :
  ends_in Re.nws s = true -> Py.rstrip s = s.
Proof.
  induction s as [|c s IH]; [done|]. intros Hend.
  destruct (ends_in_tail _ _ _ Hend) as [->|Hend'].
  - simpl in *. unfold Re.nws in Hend. by destruct (Py.is_space c).
  - simpl. rewrite (IH Hend'). destruct s; [done|]. by rewrite andb_false_r.
Qed.

(** [strip] leaves a text alone. *)
Lemma strip_text x (s : string) : text_without x s -> Py.strip s = s.
Proof.
  intros (Hb & He & _). destruct s as [|c s]; [done|].
  unfold Py.strip. simpl in Hb. simpl Py.lstrip.
  unfold Re.nws in Hb. destruct (Py.is_space c); [done|].
  by apply rstrip_ends_in.
Qed.

(** A line that begins with [set] is neither blank, nor a comment, nor
    a [subsection] line, nor [end]. *)
Lemma loop_body_set (line rest key value : string) (m : Re.caps)
    (st : parser * pyval) :
  Py.strip line = "set" +:+ rest ->
  Re.match_ Re.set_re ("set" +:+ rest) = Some m ->
  group_strip 1 m = Ok key ->
  group_strip 2 m = Ok value ->
  loop_body line st = set_parameter key value (value_type_of m) st.
Proof.
  intros Hstrip Hm Hk Hv. unfold loop_body.
  rewrite Hstrip, Hm, Hk, Hv. reflexivity.
Qed.


(** The leaf of a [set] line with a type, and of one without. *)
Lemma set_line_leaf_typed
    (line w1 K w2 w3 V w4 w5 T : string)
    (self : parser) (a : nat) (d : pydict) :
  Py.is_empty w1 = false -> blank w1 ->
  blank w2 -> blank w3 -> blank w4 -> blank w5 ->
  text_without "=" K -> text_without "," V -> token T ->
  store self !! a = Some d ->
  Py.strip line
  = "set" +:+ w1 +:+ K +:+ w2 +:+ "=" +:+ w3 +:+ V +:+ w4 +:+ "," +:+ w5
    +:+ T ->
  loop_body line (self, VRef a)
  = Ok (with_store
          (<[a := dict_set K (VRef (List.length (store self))) d]>
             (store self ++ [[("value", VStr V); ("type", VStr T)]]))
          self,
        VRef a).
Proof.
  intros Hne H1 H2 H3 H4 H5 HK HV HT Ha Hline.
  rewrite (loop_body_set _ _ K V [(3, T); (2, V); (1, K)] _ Hline).
  - replace (value_type_of [(3, T); (2, V); (1, K)]) with (VStr T).
    + by apply set_parameter_in_dict.
    + unfold value_type_of. simpl. destruct T as [|c T]; [by destruct HT|].
      by rewrite strip_token.
  - by apply set_re_with_type.
  - unfold group_strip. simpl. by rewrite (strip_text _ _ HK).
  - unfold group_strip. simpl. by rewrite (strip_text _ _ HV).
Qed.

Lemma set_line_leaf_untyped
    (line w1 K w2 w3 V : string) (self : parser) (a : nat) (d : pydict) :
  Py.is_empty w1 = false -> blank w1 -> blank w2 -> blank w3 ->
  text_without "=" K -> text_without "," V ->
  store self !! a = Some d ->
  Py.strip line = "set" +:+ w1 +:+ K +:+ w2 +:+ "=" +:+ w3 +:+ V ->
  loop_body line (self, VRef a)
  = Ok (with_store
          (<[a := dict_set K (VRef (List.length (store self))) d]>
             (store self ++ [[("value", VStr V); ("type", VNone)]]))
          self,
        VRef a).
Proof.
  intros Hne H1 H2 H3 HK HV Ha Hline.
  rewrite (loop_body_set _ _ K V [(2, V); (1, K)] _ Hline).
  - by apply set_parameter_in_dict.
  - by apply set_re_without_type.
  - unfold group_strip. simpl. by rewrite (strip_text _ _ HK).
  - unfold group_strip. simpl. by rewrite (strip_text _ _ HV).
Qed.



(** The same on three more lines: an indented line of a PRISMS-PF
    parameter file, whose key has blanks inside; a line with no blank
    around the [=]; a line with a blank before the comma and none
    after it. *)
Lemma set_lines_with_blanks :
  loop_body ("  set Model constant Mn = 100.0, DOUBLE" +:+ Py.nl)
            (init [], VRef 0)
  = Ok (mkParser [[("Model constant Mn", VRef 1)];
                  [("value", VStr "100.0"); ("type", VStr "DOUBLE")]] [] 0 [],
        VRef 0) /\
  loop_body "set x=1" (init [], VRef 0)
  = Ok (mkParser [[("x", VRef 1)];
                  [("value", VStr "1"); ("type", VNone)]] [] 0 [],
        VRef 0) /\
  loop_body "set a = 3.0 ,double" (init [], VRef 0)
  = Ok (mkParser [[("a", VRef 1)];
                  [("value", VStr "3.0"); ("type", VStr "double")]] [] 0 [],
        VRef 0).
Proof.
  assert (blank " ") as Hb by reflexivity.
  assert (blank "") as He by reflexivity.
  assert (token "DOUBLE") as HT by (split; reflexivity).
  split; [|split].
  - by apply (set_line_leaf_typed _ " " "Model constant Mn" " " " " "100.0"
                "" " " "DOUBLE" (init []) 0 []).
  - by apply (set_line_leaf_untyped _ " " "x" "" "" "1" (init []) 0 []).
  - by apply (set_line_leaf_typed _ " " "a" " " " " "3.0" " " "" "double"
                (init []) 0 []).
Qed.

(** Why the value of the amended claim has no comma: the pattern ends
    the value at the first comma that a token follows to the end of the
    line, so with commas in what follows the [=] the type is not always
    the last comma-separated token, and a comma need not start a
    type. *)
Lemma set_lines_with_a_comma_in_the_value :
  result_tree (parse_lines [] ["set a = 1,2,int"])
  = Ok (TDict [("a", leaf "1" (TStr "2,int"))]) /\
  result_tree (parse_lines [] ["set a = 1, 2, int"])
  = Ok (TDict [("a", leaf "1, 2" (TStr "int"))]) /\
  result_tree (parse_lines [] ["set a = 1, 2 3"])
  = Ok (TDict [("a", leaf "1, 2 3" TNone)]).
Proof. split; [|split]; vm_compute; reflexivity. Qed.

(** ** The store of a parser at work *)

Lemma dict_get_elem k v (d : pydict) : dict_get k d = Some v -> (k, v) ∈ d.
Proof.
  induction d as [|[k' v'] d IH]; simpl; [done|].
  destruct (String.eqb_spec k' k) as [->|].
  - intros [= ->]. left.
  - intros H. right. by apply IH.
Qed.

Lemma dict_set_elem kv k v (d : pydict) :
  kv ∈ dict_set k v d -> kv = (k, v) \/ kv ∈ d.
Proof.
  induction d as [|[k' v'] d IH]; simpl.
  - intros ->%list_elem_of_singleton. by left.
  - destruct (String.eqb k' k).
    + intros [->|H]%elem_of_cons; [by left|right; by right].
    + intros [->|H]%elem_of_cons; [right; left|].
      destruct (IH H) as [->|?]; [by left|right; by right].
Qed.

Lemma own_mono p (h h' : heap) v :
  List.length h <= List.length h' -> own p h v -> own p h' v.
Proof. destruct v; simpl; [done..|lia]. Qed.

(** A new dict that holds no reference keeps the store well formed. *)
Lemma refs_ahead_alloc p (h : heap) (d0 : pydict) :
  (forall k b, (k, VRef b) ∉ d0) ->
  refs_ahead p h -> refs_ahead p (h ++ [d0]).
Proof.
  intros Hd0 Hh a d k b Hpa Ha Hin. rewrite length_app. simpl.
  destruct (decide (a < List.length h)) as [Hlt|Hge].
  - rewrite lookup_app_l in Ha by done.
    pose proof (Hh a d k b Hpa Ha Hin). lia.
  - rewrite lookup_app_r in Ha by lia.
    destruct (a - List.length h) as [|n]; simpl in Ha; [|done].
    injection Ha as <-. by destruct (Hd0 k b).
Qed.

(** Storing a reference to a later dict keeps the store well formed. *)
Lemma refs_ahead_setitem p (h : heap) a d k b :
  refs_ahead p h -> h !! a = Some d -> a < b < List.length h ->
  refs_ahead p (<[a := dict_set k (VRef b) d]> h).
Proof.
  intros Hh Ha Hb a' d' k' b' Hpa Ha' Hin. rewrite length_insert.
  destruct (decide (a = a')) as [<-|Hne].
  - rewrite list_lookup_insert_eq in Ha' by lia. injection Ha' as <-.
    apply dict_set_elem in Hin as [[= -> ->]|Hin]; [done|].
    by apply (Hh a d k' b').
  - rewrite list_lookup_insert_ne in Ha' by done. by apply (Hh a' d' k' b').
Qed.

Lemma getitem_own p (h : heap) cur k :
  refs_ahead p h -> own p h cur ->
  match getitem h cur k with
  | Ok v => own p h v
  | Raise e => e <> Dangling
  end.
Proof.
  intros Hh Hcur. destruct cur as [| |a]; simpl; [done..|].
  simpl in Hcur. destruct (lookup_lt_is_Some_2 h a) as [d Hd]; [lia|].
  rewrite Hd. destruct (dict_get k d) as [v|] eqn:Hv; [|done].
  destruct v as [| |b]; simpl; [done..|].
  pose proof (Hh a d k b (proj1 Hcur) Hd (dict_get_elem _ _ _ Hv)). lia.
Qed.

Lemma setitem_new p (h : heap) cur k (d0 : pydict) :
  (forall k b, (k, VRef b) ∉ d0) ->
  refs_ahead p h -> own p h cur ->
  match setitem (h ++ [d0]) cur k (VRef (List.length h)) with
  | Ok h' => refs_ahead p h' /\ List.length h' = S (List.length h)
  | Raise e => e <> Dangling
  end.
Proof.
  intros Hd0 Hh Hcur. destruct cur as [| |a]; simpl; [done..|].
  simpl in Hcur. destruct (lookup_lt_is_Some_2 h a) as [d Hd]; [lia|].
  rewrite (lookup_app_l_Some _ _ _ _ Hd). split.
  - apply refs_ahead_setitem.
    + by apply refs_ahead_alloc.
    + by apply lookup_app_l_Some.
    + rewrite length_app. simpl. lia.
  - rewrite length_insert, length_app. simpl. lia.
Qed.

Lemma open_subsection_well_formed name st :
  well_formed st -> ends_well (open_subsection name st).
Proof.
  destruct st as [[h out p stk] cur]. intros (Hp & Hh & Hown).
  simpl in Hp, Hh, Hown.
  pose proof (Forall_inv Hown) as Hcur.
  unfold open_subsection, not_in_parameters. simpl.
  destruct (lookup_lt_is_Some_2 h p Hp) as [root ->]. simpl.
  destruct (negb (dict_mem name root)); simpl.
  - pose proof (setitem_new p h cur name [] (fun k b => not_elem_of_nil _)
                  Hh Hcur) as Hset.
    destruct (setitem (h ++ [[]]) cur name _) as [h'|e]; simpl; [|done].
    destruct Hset as [Hh' Hlen].
    assert (Forall (own p h') (cur :: stk)) as Hown'.
    { eapply Forall_impl; [exact Hown|]. intros v. apply own_mono. lia. }
    pose proof (getitem_own p h' cur name Hh' (Forall_inv Hown')) as Hget.
    destruct (getitem h' cur name) as [v|e]; simpl; [|done].
    split; [simpl; lia|]. split; [exact Hh'|]. by constructor.
  - pose proof (getitem_own p h cur name Hh Hcur) as Hget.
    destruct (getitem h cur name) as [v|e]; simpl; [|done].
    split; [exact Hp|]. split; [exact Hh|]. by constructor.
Qed.

Lemma value_type_of_no_ref m b : value_type_of m <> VRef b.
Proof. unfold value_type_of. by destruct (group 3 m) as [[|c g]|]. Qed.

Lemma set_parameter_well_formed key value m st :
  well_formed st -> ends_well (set_parameter key value (value_type_of m) st).
Proof.
  destruct st as [[h out p stk] cur]. intros (Hp & Hh & Hown).
  simpl in Hp, Hh, Hown. unfold set_parameter, alloc. simpl.
  assert (forall k b,
            (k, VRef b) ∉ [("value", VStr value); ("type", value_type_of m)])
    as Hleaf.
  { intros k b [[=]|[[= _ H]|[]%elem_of_nil]%elem_of_cons]%elem_of_cons.
    symmetry in H. by apply value_type_of_no_ref in H. }
  pose proof (setitem_new p h cur key _ Hleaf Hh (Forall_inv Hown)) as Hset.
  destruct (setitem _ cur key _) as [h'|e]; simpl; [|done].
  destruct Hset as [Hh' Hlen]. split; [simpl; lia|]. split; [exact Hh'|].
  simpl. eapply Forall_impl; [exact Hown|]. intros v. apply own_mono. lia.
Qed.

Lemma loop_body_well_formed line st :
  well_formed st -> ends_well (loop_body line st).
Proof.
  intros Hwf. unfold loop_body.
  destruct (Py.is_empty _); [done|].
  destruct (Py.startswith _ _); [done|].
  destruct (Re.match_ Re.subsection_re _) as [m|].
  - destruct (group_strip 1 m) as [name|e] eqn:Hg; simpl.
    + by apply open_subsection_well_formed.
    + unfold group_strip in Hg. by destruct (group 1 m); simplify_eq.
  - destruct (String.eqb _ _).
    + destruct st as [[h out p [|top stk]] cur]; [done|].
      destruct Hwf as (Hp & Hh & Hown).
      split; [exact Hp|]. split; [exact Hh|].
      by apply Forall_inv_tail in Hown.
    + destruct (Re.match_ Re.set_re _) as [m|]; [|exact Hwf].
      destruct (group_strip 1 m) as [key|e] eqn:Hg1; simpl;
        [|unfold group_strip in Hg1; by destruct (group 1 m); simplify_eq].
      destruct (group_strip 2 m) as [value|e] eqn:Hg2; simpl;
        [|unfold group_strip in Hg2; by destruct (group 2 m); simplify_eq].
      by apply set_parameter_well_formed.
Qed.

Lemma for_lines_well_formed lines st :
  well_formed st -> ends_well (for_lines lines st).
Proof.
  revert st. induction lines as [|l ls IH]; intros st Hwf; [done|].
  simpl. pose proof (loop_body_well_formed l st Hwf) as Hl.
  destruct (loop_body l st) as [st'|e]; simpl; [by apply IH|done].
Qed.

Lemma init_well_formed h : well_formed (init h, VRef (parameters (init h))).
Proof.
  unfold well_formed, init. simpl. rewrite length_app. simpl.
  split; [lia|]. split.
  - intros a d k b Hpa Ha Hin.
    rewrite lookup_app_r in Ha by done.
    destruct (a - List.length h) as [|n]; simpl in Ha; [|done].
    injection Ha as <-. by apply elem_of_nil in Hin.
  - constructor; [simpl; rewrite length_app; simpl; lia|constructor].
Qed.

Lemma reify_cut_free p (h : heap) fuel a :
  refs_ahead p h -> p <= a < List.length h -> List.length h - a <= fuel ->
  cut_free (reify fuel h (VRef a)) = true.
Proof.
  intros Hh. revert a. induction fuel as [|fuel IH]; intros a Ha Hfuel;
    [lia|].
  simpl. destruct (lookup_lt_is_Some_2 h a) as [d Hd]; [lia|].
  rewrite Hd. simpl. apply forallb_forall. intros [k t] Hin.
  apply in_map_iff in Hin as ([k' v] & [= <- <-] & Hin).
  apply list_elem_of_In in Hin.
  destruct v as [| |b]; [by destruct fuel..|].
  pose proof (Hh a d k' b (proj1 Ha) Hd Hin).
  apply (IH b); lia.
Qed.

(** The tree of a parse that ends without an exception is whole, and
    no parse runs into a reference outside the store. *)
Lemma parse_lines_tree_whole h lines :
  match parse_lines h lines with
  | Ok self => cut_free (parameters_tree self) = true
  | Raise e => e <> Dangling
  end.
Proof.
  unfold parse_lines.
  pose proof (for_lines_well_formed lines _ (init_well_formed h)) as H.
  destruct (for_lines lines _) as [[self cur]|e]; simpl; [|done].
  destruct H as (Hp & Hh & _). simpl in *.
  unfold parameters_tree. by apply (reify_cut_free (parameters self)).
Qed.

(** * Further properties *)

Import ParserMore.

(** ** White space, blank lines and comments *)

Lemma rstrip_idem (s : string) : Py.rstrip (Py.rstrip s) = Py.rstrip s.
Proof.
  induction s as [|c s IH]; [done|]. simpl.
  destruct (Py.is_space c && Py.is_empty (Py.rstrip s)) eqn:H; [done|].
  simpl. by rewrite IH, H.
Qed.

Lemma lstrip_rstrip_lstrip (s : string) :
  Py.lstrip (Py.rstrip (Py.lstrip s)) = Py.rstrip (Py.lstrip s).
Proof.
  induction s as [|c s IH]; [done|]. simpl.
  destruct (Py.is_space c) eqn:Hc; [exact IH|].
  simpl. rewrite Hc. simpl. by rewrite Hc.
Qed.

Lemma strip_idem (s : string) : Py.strip (Py.strip s) = Py.strip s.
Proof.
  unfold Py.strip. by rewrite lstrip_rstrip_lstrip, rstrip_idem.
Qed.

Lemma loop_body_strip (line : string) (st : parser * pyval) :
  loop_body (Py.strip line) st = loop_body line st.
Proof. unfold loop_body. by rewrite strip_idem. Qed.

(** X1: the white space around a line has no part in how it is read:
    a file parses as the file of its stripped lines does. *)
Theorem indentation_is_insignificant
    (lines : list string) (st : parser * pyval) :
  for_lines (Py.strip <$> lines) st = for_lines lines st.
Proof.
  revert st. induction lines as [|l ls IH]; intros st; [done|].
  simpl. rewrite loop_body_strip.
  destruct (loop_body l st) as [st'|e]; [apply IH|done].
Qed.

Lemma loop_body_ignorable (line : string) (st : parser * pyval) :
  ignorable line = true -> loop_body line st = Ok st.
Proof.
  unfold ignorable, loop_body. intros H.
  destruct (Py.is_empty (Py.strip line)); [done|].
  simpl in H. by rewrite H.
Qed.

(** X2: blank lines and lines whose first character after the
    indentation is [#] are passed over wherever they stand: the parse
    of a file is the parse of the file without them. *)
Theorem blank_and_comment_lines_are_passed_over
    (lines : list string) (st : parser * pyval) :
  for_lines (filter (fun l => ignorable l = false) lines) st
  = for_lines lines st.
Proof.
  revert st. induction lines as [|l ls IH]; intros st; [done|].
  rewrite filter_cons. destruct (ignorable l) eqn:Hl.
  - rewrite decide_False by done. simpl.
    rewrite (loop_body_ignorable _ _ Hl). simpl. apply IH.
  - rewrite decide_True by done. simpl.
    destruct (loop_body l st) as [st'|e]; [apply IH|done].
Qed.

(** ** Opening and closing subsections *)

Lemma open_subsection_pushes name st st' :
  open_subsection name st = Ok st' ->
  section_stack st'.1 = st.2 :: section_stack st.1 /\
  parameters st'.1 = parameters st.1 /\
  stdout st'.1 = stdout st.1.
Proof.
  destruct st as [[h out p stk] cur]. unfold open_subsection. simpl.
  destruct (not_in_parameters _ _) as [fresh|]; simpl; [|done].
  destruct (if fresh then _ else _) as [h'|]; simpl; [|done].
  destruct (getitem h' cur name) as [v|]; simpl; [|done].
  by intros [= <-].
Qed.

(** X3: a [subsection] line that is read without an exception and an
    [end] line after it bring back the section that was current and
    the section stack as they were; only the store may have changed. *)
Theorem subsection_then_end_restores_the_section
    (line name close : string) (st st' : parser * pyval) :
  opens line name ->
  Py.strip close = "end" ->
  loop_body line st = Ok st' ->
  exists self'',
    for_lines [line; close] st = Ok (self'', st.2) /\
    section_stack self'' = section_stack st.1 /\
    parameters self'' = parameters st.1 /\
    stdout self'' = stdout st.1 /\
    store self'' = store st'.1.
Proof.
  intros Hopen Hclose Hstep. simpl. rewrite Hstep. simpl.
  rewrite (loop_body_end _ _ Hclose). simpl.
  rewrite (loop_body_opens _ _ _ Hopen) in Hstep.
  destruct (open_subsection_pushes _ _ _ Hstep) as (Hstk & Hp & Hout).
  destruct st' as [[h' out' p' stk'] cur']. simpl in *. subst stk'.
  eexists. split; [reflexivity|]. by simpl.
Qed.

Lemma subsection_then_end_restores_the_section_witness :
  opens "  subsection Mesh" "Mesh" /\
  Py.strip "end" = "end" /\
  loop_body "  subsection Mesh" (init [], VRef 0)
    = Ok (mkParser [[("Mesh", VRef 1)]; []] [] 0 [VRef 0], VRef 1) /\
  exists self'',
    for_lines ["  subsection Mesh"; "end"] (init [], VRef 0)
      = Ok (self'', VRef 0) /\
    section_stack self'' = [] /\
    parameters self'' = 0 /\
    stdout self'' = [] /\
    store self'' = [[("Mesh", VRef 1)]; []].
Proof.
  assert (opens "  subsection Mesh" "Mesh") as Hopen.
  { repeat split. exists [(1, "Mesh")]. split; vm_compute; reflexivity. }
  assert (loop_body "  subsection Mesh" (init [], VRef 0)
    = Ok (mkParser [[("Mesh", VRef 1)]; []] [] 0 [VRef 0], VRef 1)) as Hstep
    by (vm_compute; reflexivity).
  split; [exact Hopen|]. split; [reflexivity|]. split; [exact Hstep|].
  exact (subsection_then_end_restores_the_section
           "  subsection Mesh" "Mesh" "end" (init [], VRef 0) _
           Hopen eq_refl Hstep).
Defined.

(** X4: at the root a [subsection] line never raises.  A name that is
    a key of the root dict makes its value the current section and
    leaves the store alone, so what the subsection held is kept; a new
    name gets an empty dict as the last key of the root.  Either way
    the root goes onto the section stack. *)
Theorem subsection_at_root_reuses_or_creates
    (line name : string) (self : parser) (root : pydict) :
  opens line name ->
  store self !! parameters self = Some root ->
  loop_body line (self, VRef (parameters self))
  = match dict_get name root with
    | Some v =>
        Ok (with_stack (VRef (parameters self) :: section_stack self) self,
            v)
    | None =>
        Ok (with_stack (VRef (parameters self) :: section_stack self)
              (with_store
                 (<[parameters self :=
                      root ++ [(name, VRef (List.length (store self)))]]>
                    (store self ++ [[]]))
                 self),
            VRef (List.length (store self)))
    end.
Proof.
  intros Hopen Hroot. rewrite (loop_body_opens _ _ _ Hopen).
  unfold open_subsection, not_in_parameters, dict_mem. rewrite Hroot.
  destruct (dict_get name root) as [v|] eqn:Hget; simpl.
  - rewrite Hroot, Hget. simpl. by destruct self.
  - rewrite (lookup_app_l_Some _ _ _ _ Hroot). simpl.
    assert (forall v, dict_set name v root = root ++ [(name, v)]) as Hset.
    { intros v. clear Hroot. induction root as [|[k' v'] d IH]; [done|].
      simpl in *. destruct (String.eqb k' name); [done|]. by rewrite IH. }
    rewrite Hset.
    assert (parameters self < List.length (store self)) as Hlt
      by (by eapply lookup_lt_Some).
    rewrite list_lookup_insert_eq by (rewrite length_app; simpl; lia).
    assert (dict_get name (root ++ [(name, VRef (List.length (store self)))])
            = Some (VRef (List.length (store self)))) as ->.
    { clear Hroot Hset. induction root as [|[k' v'] d IH]; simpl in *.
      - by rewrite String.eqb_refl.
      - destruct (String.eqb k' name); [done|]. by apply IH. }
    reflexivity.
Qed.

Lemma subsection_at_root_reuses_or_creates_witness :
  let self := mkParser [[("A", VRef 1)]; [("x", VRef 2)];
                        [("value", VStr "1"); ("type", VNone)]] [] 0 [] in
  opens "subsection A" "A" /\
  store self !! parameters self = Some [("A", VRef 1)] /\
  loop_body "subsection A" (self, VRef 0)
  = Ok (with_stack [VRef 0] self, VRef 1).
Proof.
  intros self.
  assert (opens "subsection A" "A") as Hopen.
  { repeat split. exists [(1, "A")]. split; vm_compute; reflexivity. }
  split; [exact Hopen|]. split; [reflexivity|].
  exact (subsection_at_root_reuses_or_creates "subsection A" "A" self
           [("A", VRef 1)] Hopen eq_refl).
Defined.

(** ** [set] lines *)

Lemma dict_get_set_eq k v (d : pydict) : dict_get k (dict_set k v d) = Some v.
Proof.
  induction d as [|[k' v'] d IH]; simpl.
  - by rewrite String.eqb_refl.
  - destruct (String.eqb k' k) eqn:H; simpl.
    + by rewrite String.eqb_refl.
    + by rewrite H.
Qed.

Lemma dict_get_set_ne k k' v (d : pydict) :
  k' <> k -> dict_get k' (dict_set k v d) = dict_get k' d.
Proof.
  intros Hne. induction d as [|[k0 v0] d IH]; simpl.
  - destruct (String.eqb_spec k k'); [congruence|done].
  - destruct (String.eqb_spec k0 k) as [->|]; simpl.
    + destruct (String.eqb_spec k k'); [congruence|done].
    + destruct (String.eqb k0 k'); [done|exact IH].
Qed.

Lemma dict_set_keys k v (d : pydict) :
  dict_mem k d = true -> (dict_set k v d).*1 = d.*1.
Proof.
  unfold dict_mem. induction d as [|[k0 v0] d IH]; simpl; [done|].
  destruct (String.eqb_spec k0 k) as [->|]; simpl; [done|].
  intros H. f_equal. by apply IH.
Qed.

(** X5: of two [set] lines for one key in one section the later wins:
    the key then holds the leaf of the second line.  The other keys of
    the section keep their values, a key that was there keeps its
    place, and no other dict of the store is touched. *)
Theorem later_set_line_wins
    (line1 line2 key value1 value2 : string) (ty1 ty2 : pyval)
    (self : parser) (a : nat) (d : pydict) :
  sets line1 key value1 ty1 ->
  sets line2 key value2 ty2 ->
  store self !! a = Some d ->
  exists self' d' leaf,
    for_lines [line1; line2] (self, VRef a) = Ok (self', VRef a) /\
    store self' !! a = Some d' /\
    dict_get key d' = Some (VRef leaf) /\
    store self' !! leaf = Some [("value", VStr value2); ("type", ty2)] /\
    (forall k, k <> key -> dict_get k d' = dict_get k d) /\
    (dict_mem key d = true -> d'.*1 = d.*1) /\
    (forall b, b < List.length (store self) -> b <> a ->
               store self' !! b = store self !! b).
Proof.
  intros H1 H2 Ha.
  assert (a < List.length (store self)) as Hlt by (by eapply lookup_lt_Some).
  simpl. rewrite (loop_body_sets _ _ _ _ _ H1).
  rewrite (set_parameter_in_dict _ _ _ _ _ _ Ha). simpl.
  rewrite (loop_body_sets _ _ _ _ _ H2).
  set (h1 := <[a:=_]> (store self ++ _)).
  assert (h1 !! a = Some (dict_set key (VRef (List.length (store self))) d))
    as Ha1.
  { subst h1. apply list_lookup_insert_eq. rewrite length_app. simpl. lia. }
  assert (List.length h1 = S (List.length (store self))) as Hlen1.
  { subst h1. rewrite length_insert, length_app. simpl. lia. }
  rewrite (set_parameter_in_dict key value2 ty2 (with_store h1 self) a _ Ha1).
  simpl. rewrite Hlen1.
  eexists _, _, (S (List.length (store self))).
  split; [reflexivity|]. simpl.
  split; [apply list_lookup_insert_eq; rewrite length_app; simpl; lia|].
  split; [apply dict_get_set_eq|].
  split.
  { rewrite list_lookup_insert_ne by lia.
    rewrite lookup_app_r by lia. rewrite Hlen1.
    by rewrite Nat.sub_diag. }
  split.
  { intros k Hk. by rewrite !dict_get_set_ne. }
  split.
  { intros Hmem. rewrite dict_set_keys; [by apply dict_set_keys|].
    unfold dict_mem. by rewrite dict_get_set_eq. }
  intros b Hb Hne.
  rewrite list_lookup_insert_ne by done.
  rewrite lookup_app_l by lia.
  subst h1. rewrite list_lookup_insert_ne by done.
  by rewrite lookup_app_l.
Qed.

Lemma later_set_line_wins_witness :
  let self := mkParser [[("y", VStr "keep"); ("x", VNone)]] [] 0 [] in
  sets "set x = 1" "x" "1" VNone /\
  sets "set x = 2, int" "x" "2" (VStr "int") /\
  store self !! 0 = Some [("y", VStr "keep"); ("x", VNone)] /\
  exists self' d' leaf,
    for_lines ["set x = 1"; "set x = 2, int"] (self, VRef 0)
      = Ok (self', VRef 0) /\
    store self' !! 0 = Some d' /\
    dict_get "x" d' = Some (VRef leaf) /\
    store self' !! leaf = Some [("value", VStr "2"); ("type", VStr "int")] /\
    (forall k, k <> "x" ->
               dict_get k d' = dict_get k [("y", VStr "keep"); ("x", VNone)]) /\
    (dict_mem "x" [("y", VStr "keep"); ("x", VNone)] = true ->
     d'.*1 = ["y"; "x"]) /\
    (forall b, b < 1 -> b <> 0 -> store self' !! b = store self !! b).
Proof.
  intros self.
  assert (sets "set x = 1" "x" "1" VNone) as H1.
  { repeat split; try discriminate.
    exists [(2, "1"); (1, "x")]. repeat split; vm_compute; reflexivity. }
  assert (sets "set x = 2, int" "x" "2" (VStr "int")) as H2.
  { repeat split; try discriminate.
    exists [(3, "int"); (2, "2"); (1, "x")].
    repeat split; vm_compute; reflexivity. }
  split; [exact H1|]. split; [exact H2|]. split; [reflexivity|].
  exact (later_set_line_wins "set x = 1" "set x = 2, int" "x" "1" "2"
           VNone (VStr "int") self 0 _ H1 H2 eq_refl).
Defined.

(** ** The store outside the parser *)

Lemma loop_body_parameters line st st' :
  loop_body line st = Ok st' -> parameters st'.1 = parameters st.1.
Proof.
  unfold loop_body.
  destruct (Py.is_empty _); [by intros [= <-]|].
  destruct (Py.startswith _ _); [by intros [= <-]|].
  destruct (Re.match_ Re.subsection_re _) as [m|].
  - destruct (group_strip 1 m) as [name|e]; simpl; [|done].
    intros H. by destruct (open_subsection_pushes _ _ _ H) as (_ & ? & _).
  - destruct (String.eqb _ _).
    + intros [= <-]. by destruct st as [[h out p [|top stk]] cur].
    + destruct (Re.match_ Re.set_re _) as [m|]; [|by intros [= <-]].
      destruct (group_strip 1 m) as [key|e]; simpl; [|done].
      destruct (group_strip 2 m) as [value|e]; simpl; [|done].
      destruct st as [[h out p stk] cur]. unfold set_parameter. simpl.
      destruct (setitem _ cur key _); simpl; [|done]. by intros [= <-].
Qed.

Lemma for_lines_parameters lines st st' :
  for_lines lines st = Ok st' -> parameters st'.1 = parameters st.1.
Proof.
  revert st. induction lines as [|l ls IH]; intros st; simpl;
    [by intros [= <-]|].
  destruct (loop_body l st) as [st1|] eqn:H1; simpl; [|done].
  intros H. rewrite (IH _ H). by eapply loop_body_parameters.
Qed.

(** X6: a parse that ends without an exception has touched no dict
    that was in the store before the parser was made: they are all
    there afterwards, unchanged and at their addresses, and the root
    dict of the parser is the first after them. *)
Theorem parse_leaves_other_objects_alone (h : heap) (lines : list string) :
  match parse_lines h lines with
  | Ok self =>
      take (List.length h) (store self) = h /\
      parameters self = List.length h /\
      List.length h < List.length (store self)
  | Raise _ => True
  end.
Proof.
  unfold parse_lines. rewrite init_shift, for_lines_shift.
  destruct (for_lines lines _) as [[self cur]|e] eqn:Hrun; [|done].
  simpl.
  pose proof (for_lines_well_formed lines _ (init_well_formed [])) as Hwf.
  pose proof (for_lines_parameters lines _ _ Hrun) as Hp.
  rewrite Hrun in Hwf. destruct Hwf as (Hlt & _). simpl in *.
  rewrite take_app_length. rewrite length_app, length_fmap.
  split; [done|]. lia.
Qed.

(** ** The exceptions of a parse *)

Lemma rep_greedy_inv {R} cls s (k : string -> option R) r :
  Re.rep_greedy cls s k = Some r -> exists s', k s' = Some r.
Proof.
  induction s as [|c s IH]; simpl; [by eauto|].
  destruct (cls c); [|by eauto].
  destruct (Re.rep_greedy cls s k) as [r'|]; simpl; [|by eauto].
  intros [= <-]. by apply IH.
Qed.

Lemma rep_lazy_inv {R} cls s (k : string -> option R) r :
  Re.rep_lazy cls s k = Some r -> exists s', k s' = Some r.
Proof.
  induction s as [|c s IH]; simpl.
  - destruct (k "") eqn:H; simpl; [|done]. intros [= <-]. eauto.
  - destruct (k (String c s)) eqn:H; simpl; [intros [= <-]; eauto|].
    destruct (cls c); [exact IH|done].
Qed.

Lemma rep_inv {R} cls plus greedy s (k : string -> option R) r :
  Re.rep cls plus greedy s k = Some r -> exists s', k s' = Some r.
Proof.
  unfold Re.rep. destruct plus.
  - destruct s as [|c s]; [done|]. destruct (cls c); [|done].
    destruct greedy; [apply rep_greedy_inv|apply rep_lazy_inv].
  - destruct greedy; [apply rep_greedy_inv|apply rep_lazy_inv].
Qed.

(** A match that succeeds went through what follows the pattern, with
    the groups it had and those the pattern sets. *)
Lemma run_inv r s c k res :
  Re.run r s c k = Some res ->
  exists s' c', k s' c' = Some res /\
    forall n, is_Some (Re.group n c) \/ binds n r = true ->
              is_Some (Re.group n c').
Proof.
  revert s c k. induction r as [l|cls plus greedy|n r IH|r IH|r1 IH1 r2 IH2|];
    intros s c k; simpl.
  - destruct (Py.strip_prefix l s) as [s'|]; [|done].
    intros H. exists s', c. split; [done|]. by intros n [?|?].
  - intros [s' H]%rep_inv. exists s', c. split; [done|]. by intros n [?|?].
  - intros (s' & c' & H & Hc)%IH. exists s', ((n, Re.consumed s s') :: c').
    split; [done|]. intros m Hm. simpl.
    destruct (Nat.eqb n m) eqn:Hnm; [by eauto|]. apply Hc.
    destruct Hm as [?|Hm]; [by left|by right].
  - destruct (Re.run r s c k) as [res'|] eqn:Hr; simpl.
    + intros [= <-]. apply IH in Hr as (s' & c' & H & Hc).
      exists s', c'. split; [done|]. intros n [?|?]; [|done].
      apply Hc. by left.
    + intros H. exists s, c. split; [done|]. by intros n [?|?].
  - intros (s1 & c1 & H1 & Hc1)%IH1. apply IH2 in H1 as (s2 & c2 & H2 & Hc2).
    exists s2, c2. split; [done|]. intros n [Hn|Hn].
    + apply Hc2. left. apply Hc1. by left.
    + apply orb_prop in Hn as [Hn|Hn].
      * apply Hc2. left. apply Hc1. by right.
      * apply Hc2. by right.
  - destruct (Re.at_eos s); [|done].
    intros H. exists s, c. split; [done|]. by intros n [?|?].
Qed.

(** Group 1 takes part in every match of the [subsection] pattern, and
    groups 1 and 2 in every match of the [set] pattern. *)
Lemma subsection_re_group l m :
  Re.match_ Re.subsection_re l = Some m -> is_Some (Re.group 1 m).
Proof.
  unfold Re.match_. intros (s' & c' & [= <-] & Hc)%run_inv.
  apply Hc. by right.
Qed.

Lemma set_re_groups l m :
  Re.match_ Re.set_re l = Some m ->
  is_Some (Re.group 1 m) /\ is_Some (Re.group 2 m).
Proof.
  unfold Re.match_. intros (s' & c' & [= <-] & Hc)%run_inv.
  split; apply Hc; by right.
Qed.

Lemma open_subsection_raises name st e :
  open_subsection name st = Raise e -> parse_error e \/ e = Dangling.
Proof.
  destruct st as [[h out p stk] cur].
  unfold open_subsection, not_in_parameters, parse_error. simpl.
  destruct (h !! p) as [root|]; simpl; [|intros [= <-]; by right].
  assert (forall h' v e', setitem h' cur name v = Raise e' ->
            e' = TypeError \/ e' = Dangling) as Hset.
  { intros h' v e'. destruct cur as [| |a]; simpl;
      [intros [= <-]; by left..|].
    destruct (h' !! a); [done|]. intros [= <-]. by right. }
  assert (forall h' e', getitem h' cur name = Raise e' ->
            ((exists k, e' = KeyError k) \/ e' = TypeError) \/ e' = Dangling)
    as Hget.
  { intros h' e'. destruct cur as [| |a]; simpl;
      [intros [= <-]; left; by right..|].
    destruct (h' !! a) as [d|]; [|intros [= <-]; by right].
    destruct (dict_get name d); [done|]. intros [= <-]. left. left. by eauto. }
  destruct (negb (dict_mem name root)); simpl.
  - destruct (setitem _ cur name _) as [h'|e'] eqn:Hs; simpl.
    + destruct (getitem h' cur name) as [v|e''] eqn:Hg; simpl; [done|].
      intros [= <-]. by eapply Hget.
    + intros [= <-]. destruct (Hset _ _ _ Hs) as [->| ->]; [left|]; by right.
  - destruct (getitem h cur name) as [v|e''] eqn:Hg; simpl; [done|].
    intros [= <-]. by eapply Hget.
Qed.

Lemma loop_body_raises line st e :
  loop_body line st = Raise e -> parse_error e \/ e = Dangling.
Proof.
  unfold loop_body.
  destruct (Py.is_empty _); [done|].
  destruct (Py.startswith _ _); [done|].
  destruct (Re.match_ Re.subsection_re _) as [m|] eqn:Hm.
  - apply subsection_re_group in Hm as [g Hg].
    unfold group_strip, group. rewrite Hg. simpl.
    apply open_subsection_raises.
  - destruct (String.eqb _ _); [done|].
    destruct (Re.match_ Re.set_re _) as [m|] eqn:Hs; [|done].
    apply set_re_groups in Hs as [[g1 Hg1] [g2 Hg2]].
    unfold group_strip, group. rewrite Hg1, Hg2. simpl.
    destruct st as [[h out p stk] cur]. unfold set_parameter. simpl.
    destruct cur as [| |a]; simpl; [intros [= <-]; left; by right..|].
    destruct (_ !! a); simpl; [done|]. intros [= <-]. by right.
Qed.

(** X7: the statements of the loop body, lines 25-62, run by a new
    parser over lines that were read and decoded, raise [KeyError] or
    [TypeError] when they raise: the indexing of lines 42, 44 and 62 is
    all that fails.  The groups the code reads with [group(1)] and
    [group(2)] take part in every match, so [.strip()] is never called
    on [None] and there is no [AttributeError].  What reading and
    decoding the file may raise, and what [print] may raise at line 64,
    is no part of the statement: the lines are given, and [print]
    returns. *)
Theorem loop_raises_KeyError_or_TypeError_only
    (h : heap) (lines : list string) (e : exn) :
  parse_lines h lines = Raise e -> parse_error e.
Proof.
  unfold parse_lines.
  assert (forall ls st, well_formed st ->
            for_lines ls st = Raise e -> parse_error e) as Hrun.
  { induction ls as [|l ls IH]; intros st Hwf; [done|]. simpl.
    pose proof (loop_body_well_formed l st Hwf) as Hl.
    destruct (loop_body l st) as [st'|e'] eqn:Hstep; simpl.
    - by apply IH.
    - intros [= <-]. by destruct (loop_body_raises _ _ _ Hstep). }
  specialize (Hrun lines _ (init_well_formed h)).
  destruct (for_lines lines _) as [[self cur]|e']; simpl; [done|].
  intros [= <-]. by apply Hrun.
Qed.

Lemma loop_raises_KeyError_or_TypeError_only_witness :
  parse_lines [] ["subsection A"; "subsection A"] = Raise (KeyError "A") /\
  parse_error (KeyError "A").
Proof.
  assert (parse_lines [] ["subsection A"; "subsection A"]
          = Raise (KeyError "A")) as H by (vm_compute; reflexivity).
  split; [exact H|].
  exact (loop_raises_KeyError_or_TypeError_only [] _ _ H).
Defined.

(** ** The organizer: what it reports and what it touches *)
Section OrganizerMoreProperties.
Import ImportSim OrganizerModel OrganizerMore.
Context `{os : Os}.


(** The method from the state lines 39-48 leave. *)
Lemma organize_files_from_prepared (self : ImportSimulator) (w : world)
    (src : string) (dst : option string) (copy : bool) src' dst' :
  paths src dst (time_time w).1 = Ok (src', dst') ->
  ImportSimulator_organize_files src dst copy (self, w)
  = (if negb (isdir src' (time_time w).1)
     then _create_result false
            ("Source directory '" +:+ src' +:+ "' does not exist.")
     else organize_files_tail)
      (prepared self (time_time w).2 src' dst' copy, (time_time w).1).
Proof.
  intros Hpaths.
  pose proof (organize_files_head_runs self w src dst copy) as Hhead.
  rewrite Hpaths in Hhead.
  unfold ImportSimulator_organize_files.
  unfold mbind at 1, M_bind at 1. rewrite Hhead.
  cbv [attr mbind M_bind mret M_ret raise self_get ask]. reflexivity.
Qed.

(** X9: for a call whose path functions return, the result names the
    source and the destination the call worked on: the source is
    [abspath(expanduser(src_dir))]; without a destination argument the
    destination is [abspath] of [./] and the base name of that source,
    with one it is [abspath(expanduser(dst_dir))]; and this on success
    and on failure alike. *)
Theorem result_names_source_and_destination
    (self : ImportSimulator) (w : world) (src : string) (copy : bool)
    (expanded src' : string) :
  expanduser src (time_time w).1 = Ok expanded ->
  abspath expanded (time_time w).1 = Ok src' ->
  (forall dst',
     abspath (join "." (basename src')) (time_time w).1 = Ok dst' ->
     exists self' w' r,
       ImportSimulator_organize_files src None copy (self, w)
         = ((self', w'), Ok r) /\
       r_src_dir r = Some src' /\ r_dst_dir r = Some dst') /\
  (forall d expanded' dst',
     expanduser d (time_time w).1 = Ok expanded' ->
     abspath expanded' (time_time w).1 = Ok dst' ->
     exists self' w' r,
       ImportSimulator_organize_files src (Some d) copy (self, w)
         = ((self', w'), Ok r) /\
       r_src_dir r = Some src' /\ r_dst_dir r = Some dst').
Proof.
  intros Hexp Habs.
  assert (forall dst dst',
            paths src dst (time_time w).1 = Ok (src', dst') ->
            exists self' w' r,
              ImportSimulator_organize_files src dst copy (self, w)
                = ((self', w'), Ok r) /\
              r_src_dir r = Some src' /\ r_dst_dir r = Some dst') as Hgen.
  { intros dst dst' Hpaths.
    rewrite (organize_files_from_prepared _ _ _ _ _ _ _ Hpaths).
    set (s1 := (prepared self (time_time w).2 src' dst' copy,
                (time_time w).1)).
    destruct (negb (isdir _ _)).
    - destruct (create_result_returns false
        ("Source directory '" +:+ src' +:+ "' does not exist.") s1)
        as (w2 & r & -> & _ & _ & Hs & Hd).
      by eexists _, w2, r.
    - destruct (organize_files_tail_returns s1 (time_time w).2 eq_refl)
        as ([self2 w2] & r & -> & Hs & Hd & _).
      by exists self2, w2, r. }
  split.
  - intros dst' Hdst. apply Hgen.
    unfold paths. rewrite Hexp. simpl. rewrite Habs. simpl.
    by rewrite Hdst.
  - intros d expanded' dst' Hexp' Hdst. apply Hgen.
    unfold paths. rewrite Hexp. simpl. rewrite Habs. simpl.
    rewrite Hexp'. simpl. by rewrite Hdst.
Qed.

Lemma invariant_bind {A B} Q (c : M A) (k : A -> M B) :
  invariant Q c -> (forall a, invariant Q (k a)) -> invariant Q (c ≫= k).
Proof.
  intros Hc Hk s Hs. unfold mbind, M_bind. specialize (Hc s Hs).
  destruct (c s) as [s1 [a|e]]; simpl in *; [by apply Hk|done].
Qed.

Lemma invariant_ret {A} Q (a : A) : invariant Q (mret a).
Proof. by intros s Hs. Qed.

Lemma invariant_raise {A} Q e : invariant Q (@raise _ A e).
Proof. by intros s Hs. Qed.

Lemma invariant_ask {A} Q (f : world -> A) : invariant Q (ask f).
Proof. by intros s Hs. Qed.

Lemma invariant_read {A} Q (f : world -> res A) : invariant Q (read f).
Proof. by intros s Hs. Qed.

Lemma invariant_self_get {A} Q (f : ImportSimulator -> A) :
  invariant Q (self_get f).
Proof. by intros s Hs. Qed.

Lemma invariant_attr Q f : invariant Q (attr f).
Proof.
  apply invariant_bind; [apply invariant_self_get|].
  intros [v|]; [apply invariant_ret|apply invariant_raise].
Qed.

Lemma invariant_try {A} Q (c : M A) (h : exception -> M A) :
  invariant Q c -> (forall e, invariant Q (h e)) -> invariant Q (try c h).
Proof.
  intros Hc Hh s Hs. unfold try. specialize (Hc s Hs).
  destruct (c s) as [s1 [a|e]]; simpl in *; [done|by apply Hh].
Qed.

(** A call keeps a property of the world and of [self] that the
    operating-system function keeps. *)
Lemma invariant_call {A} (P : world -> Prop) (R : ImportSimulator -> Prop)
    (f : world -> world * res A) :
  (forall w, P w -> P (f w).1) ->
  invariant (fun s => P s.2 /\ R s.1) (call f).
Proof.
  intros Hf [self w] [HP HR]. unfold call. simpl in *.
  specialize (Hf w HP). by destruct (f w).
Qed.

Section KeptByTheClock.
Context (P : world -> Prop) (R : ImportSimulator -> Prop).
Hypothesis P_time : forall w, P w -> P (time_time w).1.

Lemma invariant_time :
  invariant (fun s => P s.2 /\ R s.1)
    (call (fun w => let '(w, t) := time_time w in (w, Ok t))).
Proof.
  apply invariant_call. intros w Hw. specialize (P_time w Hw).
  by destruct (time_time w).
Qed.

Lemma invariant_create_result ok msg :
  invariant (fun s => P s.2 /\ R s.1) (_create_result ok msg).
Proof.
  apply invariant_bind; [apply invariant_self_get|]. intros t0.
  apply invariant_bind.
  { destruct t0 as [t0|]; [|apply invariant_ret].
    destruct (truthy t0); [|apply invariant_ret].
    apply invariant_bind; [apply invariant_time|].
    intros t. apply invariant_ret. }
  intros elapsed. apply invariant_bind; [apply invariant_self_get|].
  intros src. apply invariant_bind; [apply invariant_self_get|].
  intros dst. apply invariant_ret.
Qed.
End KeptByTheClock.


(** X10: when the path functions return and the source is no
    directory, the call only reads the clock: it makes no directory
    and copies or moves no file, so whatever the clock leaves true of
    the file system is true afterwards, and the result says the source
    does not exist. *)
Theorem missing_source_touches_nothing
    (P : world -> Prop) (self : ImportSimulator) (w : world)
    (src : string) (dst : option string) (copy : bool) (src' dst' : string) :
  (forall w, P w -> P (time_time w).1) ->
  P w ->
  paths src dst (time_time w).1 = Ok (src', dst') ->
  isdir src' (time_time w).1 = false ->
  exists self' w' r,
    ImportSimulator_organize_files src dst copy (self, w)
      = ((self', w'), Ok r) /\
    P w' /\
    success r = false /\
    message r = "Source directory '" +:+ src' +:+ "' does not exist.".
Proof.
  intros Htime HP Hpaths Hdir.
  rewrite (organize_files_from_prepared _ _ _ _ _ _ _ Hpaths).
  rewrite Hdir. simpl.
  set (s1 := (prepared self (time_time w).2 src' dst' copy, (time_time w).1)).
  set (msg := "Source directory '" +:+ _).
  pose proof (invariant_create_result P (fun _ => True) Htime false msg
                s1 (conj (Htime w HP) I)) as [HP' _].
  destruct (create_result_returns false msg s1)
    as (w2 & r & Hr & Hok & Hmsg & _).
  rewrite Hr in HP' |- *. by eexists _, w2, r.
Qed.

Lemma invariant_attr_bind {B} (P : world -> Prop)
    (R : ImportSimulator -> Prop) f (k : string -> M B) :
  (forall v, invariant (fun s => P s.2 /\ (R s.1 /\ f s.1 = Some v)) (k v)) ->
  invariant (fun s => P s.2 /\ R s.1) (attr f ≫= k).
Proof.
  intros Hk [self w] [HP HR].
  cbv [attr mbind M_bind mret M_ret raise self_get]. simpl in *.
  destruct (f self) as [v|] eqn:Hf; simpl; [|done].
  by destruct (Hk v (self, w) (conj HP (conj HR Hf))) as (? & ? & _).
Qed.

Lemma invariant_self_get_bind {A B} (P : world -> Prop)
    (R : ImportSimulator -> Prop) (f : ImportSimulator -> A) (k : A -> M B) :
  (forall v, invariant (fun s => P s.2 /\ (R s.1 /\ f s.1 = v)) (k v)) ->
  invariant (fun s => P s.2 /\ R s.1) (self_get f ≫= k).
Proof.
  intros Hk [self w] [HP HR]. cbv [mbind M_bind self_get]. simpl in *.
  by destruct (Hk (f self) (self, w) (conj HP (conj HR eq_refl)))
    as (? & ? & _).
Qed.

Section KeptByCopies.
Context (P : world -> Prop).
Hypothesis P_time : forall w, P w -> P (time_time w).1.
Hypothesis P_makedirs : forall d w, P w -> P (makedirs d w).1.
Hypothesis P_copy2 : forall f d w, P w -> P (copy2 f d w).1.

Lemma invariant_makedirs_each R ds :
  invariant (fun s => P s.2 /\ R s.1) (makedirs_each ds).
Proof.
  induction ds as [|d ds IH]; [apply invariant_ret|].
  apply invariant_bind; [apply invariant_call, P_makedirs|].
  intros _. exact IH.
Qed.

Lemma invariant_transfer_each R files destination copy :
  (copy = false -> forall f w, P w -> P (move f destination w).1) ->
  invariant (fun s => P s.2 /\ R s.1) (transfer_each files destination copy).
Proof.
  intros Hmove. induction files as [|f files IH]; [apply invariant_ret|].
  apply invariant_bind; [|intros _; exact IH].
  destruct copy; apply invariant_call; [apply P_copy2|by apply Hmove].
Qed.

Lemma invariant_for_patterns R patterns destination copy found :
  (copy = false -> forall f w, P w -> P (move f destination w).1) ->
  invariant (fun s => P s.2 /\ R s.1)
    (for_patterns patterns destination copy found).
Proof.
  intros Hmove. revert found.
  induction patterns as [|p ps IH]; intros found; [apply invariant_ret|].
  apply invariant_bind; [apply invariant_attr|]. intros src.
  apply invariant_bind; [apply invariant_read|]. intros [|f fs]; [apply IH|].
  apply invariant_bind; [by apply invariant_transfer_each|].
  intros _. apply IH.
Qed.

Lemma invariant_handle_special_files R :
  invariant (fun s => P s.2 /\ R s.1) _handle_special_files.
Proof.
  apply invariant_bind; [apply invariant_attr|]. intros src.
  apply invariant_bind; [apply invariant_ask|]. intros present.
  apply invariant_bind.
  { destruct present; [|apply invariant_ret].
    apply invariant_bind; [apply invariant_attr|]. intros ?.
    apply invariant_call, P_copy2. }
  intros _. apply invariant_bind; [apply invariant_attr|]. intros src'.
  apply invariant_bind; [apply invariant_ask|].
  intros [|]; [|apply invariant_ret].
  apply invariant_bind; [apply invariant_attr|]. intros ?.
  apply invariant_call, P_copy2.
Qed.

(** [_organize_files] moves files only when [self.copy_output] is
    false, and only into [self.output_dir]. *)
Lemma invariant_organize_files outdir copy :
  (copy = false -> forall f w, P w -> P (move f outdir w).1) ->
  invariant
    (fun s => P s.2 /\
              (copy_output s.1 = copy /\ output_dir s.1 = Some outdir))
    _organize_files.
Proof.
  intros Hmove. unfold _organize_files.
  set (R := fun self : ImportSimulator =>
              copy_output self = copy /\ output_dir self = Some outdir).
  change (invariant (fun s => P s.2 /\ R s.1)
    (code ← attr code_dir;
     _ ← _copy_files_by_pattern code_extensions code true;
     output ← attr output_dir;
     copy ← self_get copy_output;
     _ ← _copy_files_by_pattern output_extensions output copy;
     dst ← attr dst_dir;
     _ ← _copy_files_by_pattern ["*.md"] dst true;
     _handle_special_files)).
  apply invariant_bind; [apply invariant_attr|]. intros code.
  apply invariant_bind;
    [by apply (invariant_for_patterns R); intros [=]|].
  intros _.
  apply (invariant_attr_bind P R). intros output.
  apply (invariant_self_get_bind P
           (fun self => R self /\ output_dir self = Some output)).
  intros copy'.
  set (R2 := fun self : ImportSimulator =>
               (R self /\ output_dir self = Some output) /\
               copy_output self = copy').
  assert ((copy' = false -> forall f w, P w -> P (move f output w).1) \/
          (forall self, ~ R2 self)) as [Hm|Hno].
  { destruct copy'; [left; by intros [=]|].
    destruct copy.
    { right. intros self (((HR & _) & _) & Hcopy). congruence. }
    destruct (decide (output = outdir)) as [->|Hne]; [left; by intros _; auto|].
    right. intros self (((_ & HR) & Hout) & _). congruence. }
  - change (invariant (fun s => P s.2 /\ R2 s.1)
      (_ ← _copy_files_by_pattern output_extensions output copy';
       dst ← attr dst_dir;
       _ ← _copy_files_by_pattern ["*.md"] dst true;
       _handle_special_files)).
    apply invariant_bind; [by apply (invariant_for_patterns R2)|]. intros _.
    apply invariant_bind; [apply invariant_attr|]. intros dst.
    apply invariant_bind;
      [by apply (invariant_for_patterns R2); intros [=]|].
    intros _. apply (invariant_handle_special_files R2).
  - intros s [_ Hs]. by destruct (Hno s.1).
Qed.
End KeptByCopies.
Section MovesOnlyOutput.
Context (P : world -> Prop) (dst' : string) (copy : bool).
Hypothesis P_time : forall w, P w -> P (time_time w).1.
Hypothesis P_makedirs : forall d w, P w -> P (makedirs d w).1.
Hypothesis P_copy2 : forall f d w, P w -> P (copy2 f d w).1.
Hypothesis P_move :
  copy = false ->
  forall f w, P w -> P (move f (join (join dst' "data") "vtk") w).1.

Lemma create_directory_structure_keeps (s : ImportSimulator * world) :
  P s.2 -> dst_dir s.1 = Some dst' -> copy_output s.1 = copy ->
  P (_create_directory_structure s).1.2 /\
  (forall u, (_create_directory_structure s).2 = Ok u ->
     output_dir (_create_directory_structure s).1.1
       = Some (join (join dst' "data") "vtk") /\
     copy_output (_create_directory_structure s).1.1 = copy /\
     same_run s.1 (_create_directory_structure s).1.1).
Proof.
  destruct s as [self w]. simpl. intros HP Hdst Hcopy.
  unfold _create_directory_structure.
  cbv [attr mbind M_bind mret M_ret raise self_get self_set call].
  simpl. rewrite Hdst. simpl.
  pose proof (P_makedirs dst' w HP) as HP1.
  destruct (makedirs dst' w) as [w1 [[]|e]]; simpl in *; [|done].
  set (self1 := set_subdirs _ _ _ _ _ _ self).
  pose proof (invariant_makedirs_each P P_makedirs (fun s' => s' = self1)
    [join dst' "code"; join dst' "data"; join (join dst' "data") "vtk";
     join (join dst' "data") "images"; join (join dst' "data") "movies";
     join (join dst' "data") "postprocess"] (self1, w1) (conj HP1 eq_refl))
    as [HP2 Hself].
  split; [exact HP2|]. intros u _.
  change (makedirs_each
    [join dst' "code"; join dst' "data"; join (join dst' "data") "vtk";
     join (join dst' "data") "images"; join (join dst' "data") "movies";
     join (join dst' "data") "postprocess"] (self1, w1)).1.1
    with ((call (makedirs (join dst' "code"))
      ≫= λ _ : (),
           call (makedirs (join dst' "data"))
           ≫= λ _ : (),
                call (makedirs (join (join dst' "data") "vtk"))
                ≫= λ _ : (),
                     call (makedirs (join (join dst' "data") "images"))
                     ≫= λ _ : (),
                          call (makedirs (join (join dst' "data") "movies"))
                          ≫= λ _ : (),
                               call
                                 (makedirs
                                    (join (join dst' "data") "postprocess"))
                               ≫= λ _ : (), mret ()) (self1, w1)).1.1
    in Hself.
  rewrite Hself. by subst self1.
Qed.

Lemma organize_files_tail_keeps (s : ImportSimulator * world) :
  P s.2 -> dst_dir s.1 = Some dst' -> copy_output s.1 = copy ->
  P (organize_files_tail s).1.2.
Proof.
  intros HP Hdst Hcopy.
  destruct (create_directory_structure_keeps s HP Hdst Hcopy) as [HP1 Hs1].
  cbv [organize_files_tail try mbind M_bind mret M_ret raise self_get call].
  destruct (_create_directory_structure s) as [s1 [[]|e]]; simpl in *.
  - destruct (Hs1 () eq_refl) as (Hout & Hcopy1 & _).
    pose proof (invariant_organize_files P P_copy2 _ copy P_move s1
                  (conj HP1 (conj Hcopy1 Hout))) as [HP2 _].
    destruct (_organize_files s1) as [s2 [[]|e]]; simpl in *.
    + pose proof (P_time _ HP2) as HP3.
      destruct (time_time s2.2) as [w t]; simpl in *.
      destruct (start_time s2.1) as [t0|]; [|exact HP3].
      pose proof (invariant_create_result P (fun _ => True) P_time true
        ("File organization completed in " +:+ format_2f (fsub t t0)
         +:+ " seconds.") (s2.1, w) (conj HP3 I)) as [HP4 _].
      exact HP4.
    + pose proof (invariant_create_result P (fun _ => True) P_time false
        ("Failed to organize files: " +:+ exc_str e) s2 (conj HP2 I))
        as [HP3 _].
      by destruct (_create_result _ _ s2) as [s3 [r|e']].
  - pose proof (invariant_create_result P (fun _ => True) P_time false
      ("Failed to create directory structure: " +:+ exc_str e) s1
      (conj HP1 I)) as [HP2 _].
    by destruct (_create_result _ _ s1) as [s2 [r|e']].
Qed.
End MovesOnlyOutput.

(** X11: the call moves a file only when [copy_output] is false, and
    then only into [data/vtk] of the destination; everything else it
    does to the file system is [os.makedirs] and [shutil.copy2].  So a
    property of the file system that the clock, [makedirs] and [copy2]
    keep, and [move] into [data/vtk] when [copy_output] is false, holds
    after the call, however it ends. *)
Theorem only_output_files_are_moved
    (P : world -> Prop) (self : ImportSimulator) (w : world)
    (src : string) (dst : option string) (copy : bool) :
  (forall w, P w -> P (time_time w).1) ->
  (forall d w, P w -> P (makedirs d w).1) ->
  (forall f d w, P w -> P (copy2 f d w).1) ->
  (copy = false ->
   forall src' dst', paths src dst (time_time w).1 = Ok (src', dst') ->
   forall f w, P w -> P (move f (join (join dst' "data") "vtk") w).1) ->
  P w ->
  P (ImportSimulator_organize_files src dst copy (self, w)).1.2.
Proof.
  intros Htime Hmk Hcp Hmv HP.
  destruct (paths src dst (time_time w).1) as [[src' dst']|e] eqn:Hpaths.
  - rewrite (organize_files_from_prepared _ _ _ _ _ _ _ Hpaths).
    pose proof (Htime w HP) as HP1.
    destruct (negb (isdir _ _)).
    + by destruct (invariant_create_result P (fun _ => True) Htime false
        ("Source directory '" +:+ src' +:+ "' does not exist.")
        (prepared self (time_time w).2 src' dst' copy, (time_time w).1)
        (conj HP1 I)).
    + apply (organize_files_tail_keeps P dst' copy); try done.
      intros Hc. by apply (Hmv Hc src' dst').
  - pose proof (organize_files_head_runs self w src dst copy) as Hhead.
    rewrite Hpaths in Hhead. destruct Hhead as [self' Hhead].
    unfold ImportSimulator_organize_files.
    unfold mbind at 1, M_bind at 1. rewrite Hhead. simpl. by apply Htime.
Qed.

(** X12: when the path functions return, the source is a directory and
    [os.makedirs] raises on the destination itself, the result has
    [success] false and the message
    [Failed to create directory structure:] with the text of the
    exception; nothing was copied or moved: the file system is as that
    [makedirs] left it, but for the clock. *)
Theorem failing_makedirs_is_reported
    (self : ImportSimulator) (w w2 : world) (src : string)
    (dst : option string) (copy : bool) (src' dst' : string)
    (e : exception) :
  paths src dst (time_time w).1 = Ok (src', dst') ->
  isdir src' (time_time w).1 = true ->
  makedirs dst' (time_time w).1 = (w2, Raise e) ->
  exists self' w' r,
    ImportSimulator_organize_files src dst copy (self, w)
      = ((self', w'), Ok r) /\
    success r = false /\
    message r = "Failed to create directory structure: " +:+ exc_str e /\
    (w' = w2 \/ w' = (time_time w2).1).
Proof.
  intros Hpaths Hdir Hmk.
  rewrite (organize_files_from_prepared _ _ _ _ _ _ _ Hpaths).
  rewrite Hdir. simpl.
  set (self1 := prepared self (time_time w).2 src' dst' copy).
  cbv [organize_files_tail _create_directory_structure try attr mbind M_bind
       mret M_ret raise self_get self_set call].
  simpl. rewrite Hmk. simpl.
  destruct (create_result_returns false
    ("Failed to create directory structure: " +:+ exc_str e) (self1, w2))
    as (w3 & r & Hr & Hok & Hmsg & _).
  assert (w3 = w2 \/ w3 = (time_time w2).1) as Hw.
  { revert Hr. unfold _create_result.
    cbv [mbind M_bind mret M_ret self_get call]. simpl.
    destruct (truthy (time_time w).2); simpl; [|intros [= <-]; by left].
    destruct (time_time w2) as [w4 t]; simpl. intros [= <-]. by right. }
  rewrite Hr. by exists self1, w3, r.
Qed.

(** The methods that make the directories and transfer the files leave
    the attributes of [self] alone, but for the six directories
    [_create_directory_structure] sets. *)
Lemma makedirs_each_self ds (s : ImportSimulator * world) :
  (makedirs_each ds s).1.1 = s.1.
Proof.
  revert s. induction ds as [|d ds IH]; intros s; [done|].
  simpl. cbv [mbind M_bind call].
  destruct (makedirs d s.2) as [w [[]|e]]; simpl; [|done]. by rewrite IH.
Qed.

Lemma create_directory_structure_self (s s' : ImportSimulator * world) dst :
  dst_dir s.1 = Some dst ->
  _create_directory_structure s = (s', Ok ()) ->
  s'.1 = set_subdirs (Some (join dst "code")) (Some (join dst "data"))
           (Some (join (join dst "data") "vtk"))
           (Some (join (join dst "data") "images"))
           (Some (join (join dst "data") "movies"))
           (Some (join (join dst "data") "postprocess")) s.1.
Proof.
  intros Hdst. unfold _create_directory_structure.
  cbv [attr mbind M_bind mret M_ret raise self_get self_set call].
  rewrite Hdst. destruct (makedirs dst s.2) as [w [[]|e]]; simpl; [|done].
  intros H.
  pose proof (makedirs_each_self
    [join dst "code"; join dst "data"; join (join dst "data") "vtk";
     join (join dst "data") "images"; join (join dst "data") "movies";
     join (join dst "data") "postprocess"]
    (set_subdirs (Some (join dst "code")) (Some (join dst "data"))
       (Some (join (join dst "data") "vtk"))
       (Some (join (join dst "data") "images"))
       (Some (join (join dst "data") "movies"))
       (Some (join (join dst "data") "postprocess")) s.1, w)) as Hself.
  simpl in Hself. rewrite H in Hself. exact Hself.
Qed.

Lemma transfer_each_self files destination copy
    (s : ImportSimulator * world) :
  (transfer_each files destination copy s).1.1 = s.1.
Proof.
  revert s. induction files as [|f fs IH]; intros s; [done|].
  simpl. cbv [mbind M_bind call]. destruct copy.
  - destruct (copy2 f destination s.2) as [w [[]|e]]; simpl; [|done].
    by rewrite IH.
  - destruct (move f destination s.2) as [w [[]|e]]; simpl; [|done].
    by rewrite IH.
Qed.

Lemma for_patterns_self patterns destination copy found
    (s : ImportSimulator * world) :
  (for_patterns patterns destination copy found s).1.1 = s.1.
Proof.
  revert found s. induction patterns as [|p ps IH]; intros found s; [done|].
  cbn [for_patterns]. cbv [attr mbind M_bind mret M_ret raise self_get read].
  destruct (src_dir s.1) as [src|]; [|done].
  destruct (glob (join src p) s.2) as [[|f fs]|e]; [apply IH| |done].
  pose proof (transfer_each_self (f :: fs) destination copy s) as Ht.
  destruct (transfer_each (f :: fs) destination copy s) as [s1 [[]|e]];
    [|exact Ht].
  rewrite IH. exact Ht.
Qed.

(** X14: when the path functions return, the source is a directory,
    the directories were made and the code files copied, and the first
    output file that [glob] finds for [*.vtk] cannot be transferred,
    because [shutil.copy2] raises on it or, with [copy_output] false,
    [shutil.move] does, the result has [success] false and the message
    [Failed to organize files:] with the text of the exception; no
    file is transferred after it: the file system is as that call
    left it, but for the clock. *)
Theorem failing_transfer_is_reported
    (self : ImportSimulator) (w w2 : world) (src : string)
    (dst : option string) (copy : bool) (src' dst' : string)
    (s0 s1 : ImportSimulator * world) (found : bool)
    (f : string) (fs : list string) (e : exception) :
  paths src dst (time_time w).1 = Ok (src', dst') ->
  isdir src' (time_time w).1 = true ->
  _create_directory_structure
    (prepared self (time_time w).2 src' dst' copy, (time_time w).1)
  = (s0, Ok ()) ->
  _copy_files_by_pattern code_extensions (join dst' "code") true s0
  = (s1, Ok found) ->
  glob (join src' "*.vtk") s1.2 = Ok (f :: fs) ->
  (if copy then copy2 f (join (join dst' "data") "vtk") s1.2
   else move f (join (join dst' "data") "vtk") s1.2) = (w2, Raise e) ->
  exists self' w' r,
    ImportSimulator_organize_files src dst copy (self, w)
      = ((self', w'), Ok r) /\
    success r = false /\
    message r = "Failed to organize files: " +:+ exc_str e /\
    (w' = w2 \/ w' = (time_time w2).1).
Proof.
  intros Hpaths Hdir Hmk Hcode Hglob Hfail.
  rewrite (organize_files_from_prepared _ _ _ _ _ _ _ Hpaths).
  rewrite Hdir. simpl.
  pose proof (create_directory_structure_self
                (prepared self (time_time w).2 src' dst' copy,
                 (time_time w).1) s0 dst' eq_refl Hmk) as Hs0.
  pose proof (for_patterns_self code_extensions (join dst' "code") true false
                s0) as Hs1.
  unfold _copy_files_by_pattern in Hcode. rewrite Hcode in Hs1.
  destruct s0 as [self0 w0], s1 as [self1 w1]. simpl in Hs0, Hs1, Hglob, Hfail.
  subst self1 self0.
  assert (_organize_files
            (set_subdirs (Some (join dst' "code")) (Some (join dst' "data"))
               (Some (join (join dst' "data") "vtk"))
               (Some (join (join dst' "data") "images"))
               (Some (join (join dst' "data") "movies"))
               (Some (join (join dst' "data") "postprocess"))
               (prepared self (time_time w).2 src' dst' copy), w0)
          = ((set_subdirs (Some (join dst' "code")) (Some (join dst' "data"))
               (Some (join (join dst' "data") "vtk"))
               (Some (join (join dst' "data") "images"))
               (Some (join (join dst' "data") "movies"))
               (Some (join (join dst' "data") "postprocess"))
               (prepared self (time_time w).2 src' dst' copy), w2),
             Raise e)) as Horg.
  { unfold _organize_files, _copy_files_by_pattern.
    unfold mbind at 1, M_bind at 1.
    change (attr code_dir _) with
      (set_subdirs (Some (join dst' "code")) (Some (join dst' "data"))
               (Some (join (join dst' "data") "vtk"))
               (Some (join (join dst' "data") "images"))
               (Some (join (join dst' "data") "movies"))
               (Some (join (join dst' "data") "postprocess"))
               (prepared self (time_time w).2 src' dst' copy), w0,
       @Ok exception _ (join dst' "code")).
    cbv iota beta.
    unfold mbind at 1, M_bind at 1. rewrite Hcode.
    unfold output_extensions. cbn [for_patterns].
    cbv [attr self_get mbind M_bind mret M_ret raise read].
    cbn [output_dir copy_output src_dir set_subdirs prepared set_dst_dir
         set_copy_output set_src_dir set_start_time fst snd].
    rewrite Hglob. cbn [transfer_each]. cbv [mbind M_bind call].
    destruct copy; cbn [fst snd]; by rewrite Hfail. }
  set (self2 := set_subdirs _ _ _ _ _ _ _) in *.
  cbv [organize_files_tail try mbind M_bind mret M_ret].
  rewrite Hmk, Horg.
  destruct (create_result_returns false
    ("Failed to organize files: " +:+ exc_str e) (self2, w2))
    as (w3 & r & Hr & Hok & Hmsg & _).
  assert (w3 = w2 \/ w3 = (time_time w2).1) as Hw.
  { revert Hr. unfold _create_result.
    cbv [mbind M_bind mret M_ret self_get call]. simpl.
    destruct (truthy (time_time w).2); simpl; [|intros [= <-]; by left].
    destruct (time_time w2) as [w4 t]; simpl. intros [= <-]. by right. }
  cbv [mbind M_bind mret M_ret] in Hr |- *.
  rewrite Hr. by exists self2, w3, r.
Qed.
End OrganizerMoreProperties.

Section OnTheToyFileSystem.
Import ImportSim OrganizerModel OrganizerMore.
#[local] Existing Instance toy_os.

Lemma result_names_source_and_destination_witness :
  let w := mkToy ["/cwd/run7"] [] 0 false in
  expanduser "run7" (time_time w).1 = Ok "run7" /\
  abspath "run7" (time_time w).1 = Ok "/cwd/run7" /\
  (forall dst',
     abspath (join "." (basename "/cwd/run7")) (time_time w).1 = Ok dst' ->
     exists self' w' r,
       ImportSimulator_organize_files "run7" None true (init, w)
         = ((self', w'), Ok r) /\
       r_src_dir r = Some "/cwd/run7" /\ r_dst_dir r = Some dst') /\
  abspath (join "." (basename "/cwd/run7")) (time_time w).1
    = Ok "/cwd/run7".
Proof.
  intros w. split; [reflexivity|]. split; [reflexivity|].
  split; [|reflexivity].
  exact (proj1 (result_names_source_and_destination (os := toy_os)
                  init w "run7" true "run7" "/cwd/run7" eq_refl eq_refl)).
Defined.

Lemma missing_source_touches_nothing_witness :
  let P := fun w : toy_world =>
    toy_dirs w = [] /\ toy_files w = [("/cwd/src", "out", "vtk")] in
  let w := mkToy [] [("/cwd/src", "out", "vtk")] 0 false in
  (forall w, P w -> P (time_time w).1) /\
  P w /\
  paths "src" None (time_time w).1 = Ok ("/cwd/src", "/cwd/src") /\
  isdir "/cwd/src" (time_time w).1 = false /\
  exists self' w' r,
    ImportSimulator_organize_files "src" None true (init, w)
      = ((self', w'), Ok r) /\
    P w' /\
    success r = false /\
    message r = "Source directory '/cwd/src' does not exist.".
Proof.
  intros P w.
  assert (forall w, P w -> P (time_time w).1) as Htime by (by intros []).
  assert (P w) as HP by done.
  split; [exact Htime|]. split; [exact HP|]. split; [reflexivity|].
  split; [reflexivity|].
  exact (missing_source_touches_nothing (os := toy_os) P init w "src" None
           true "/cwd/src" "/cwd/src" Htime HP eq_refl eq_refl).
Defined.

Lemma only_output_files_are_moved_witness :
  let P := fun w : toy_world =>
    In ("/cwd/src", "out", "vtk") (toy_files w) in
  let w := mkToy ["/cwd/src"]
                 [("/cwd/src", "out", "vtk"); ("/cwd/src", "run", "cpp")]
                 0 false in
  (forall w, P w -> P (time_time w).1) /\
  (forall d w, P w -> P (makedirs d w).1) /\
  (forall f d w, P w -> P (copy2 f d w).1) /\
  (true = false ->
   forall src' dst', paths "src" None (time_time w).1 = Ok (src', dst') ->
   forall f w, P w -> P (move f (join (join dst' "data") "vtk") w).1) /\
  P w /\
  P (ImportSimulator_organize_files "src" None true (init, w)).1.2.
Proof.
  intros P w.
  assert (forall w, P w -> P (time_time w).1) as Htime by (by intros []).
  assert (forall d w, P w -> P (makedirs d w).1) as Hmk.
  { intros d [ds fs c l] H. simpl. unfold toy_makedirs. simpl.
    by destruct l. }
  assert (forall f d w, P w -> P (copy2 f d w).1) as Hcp.
  { intros f d [ds fs c l] H. simpl. unfold toy_copy2. simpl.
    destruct l; [done|]. destruct (toy_find f _); [|done].
    simpl. unfold P. simpl. apply in_or_app. by left. }
  assert (P w) as HP by (by left).
  split; [exact Htime|]. split; [exact Hmk|]. split; [exact Hcp|].
  split; [discriminate|]. split; [exact HP|].
  apply (only_output_files_are_moved (os := toy_os) P init w "src" None true
           Htime Hmk Hcp); [discriminate|exact HP].
Defined.

Lemma failing_makedirs_is_reported_witness :
  let w := mkToy ["/cwd/src"] [("/cwd/src", "out", "vtk")] 0 true in
  let w1 := mkToy ["/cwd/src"] [("/cwd/src", "out", "vtk")] 1 true in
  paths "src" None (time_time w).1 = Ok ("/cwd/src", "/cwd/src") /\
  isdir "/cwd/src" (time_time w).1 = true /\
  makedirs "/cwd/src" (time_time w).1 = (w1, Raise toy_denied) /\
  exists self' w' r,
    ImportSimulator_organize_files "src" None false (init, w)
      = ((self', w'), Ok r) /\
    success r = false /\
    message r = "Failed to create directory structure: "
                +:+ exc_str toy_denied /\
    (w' = w1 \/ w' = (time_time w1).1).
Proof.
  intros w w1. split; [reflexivity|]. split; [reflexivity|].
  split; [reflexivity|].
  exact (failing_makedirs_is_reported (os := toy_os) init w w1 "src" None
           false "/cwd/src" "/cwd/src" toy_denied eq_refl eq_refl eq_refl).
Defined.

Lemma failing_transfer_is_reported_witness :
  let w := mkToy ["/cwd/src"]
             [("/cwd/src", "out", "vtk"); ("/cwd/out/data/vtk", "out", "vtk")]
             0 false in
  let s := (prepared init (time_time w).2 "/cwd/src" "/cwd/out" false,
            (time_time w).1) in
  let s0 := (_create_directory_structure s).1 in
  let s1 := (_copy_files_by_pattern code_extensions (join "/cwd/out" "code")
               true s0).1 in
  paths "src" (Some "out") (time_time w).1 = Ok ("/cwd/src", "/cwd/out") /\
  isdir "/cwd/src" (time_time w).1 = true /\
  _create_directory_structure s = (s0, Ok ()) /\
  _copy_files_by_pattern code_extensions (join "/cwd/out" "code") true s0
  = (s1, Ok false) /\
  glob (join "/cwd/src" "*.vtk") s1.2 = Ok ["/cwd/src/out.vtk"] /\
  move "/cwd/src/out.vtk" (join (join "/cwd/out" "data") "vtk") s1.2
  = (s1.2, Raise toy_exists) /\
  exists self' w' r,
    ImportSimulator_organize_files "src" (Some "out") false (init, w)
      = ((self', w'), Ok r) /\
    success r = false /\
    message r = "Failed to organize files: " +:+ exc_str toy_exists /\
    (w' = s1.2 \/ w' = (time_time s1.2).1).
Proof.
  intros w s s0 s1.
  split; [reflexivity|]. split; [reflexivity|]. split; [reflexivity|].
  split; [reflexivity|]. split; [reflexivity|]. split; [reflexivity|].
  exact (failing_transfer_is_reported (os := toy_os) init w s1.2 "src"
           (Some "out") false "/cwd/src" "/cwd/out" s0 s1 false
           "/cwd/src/out.vtk" [] toy_exists
           eq_refl eq_refl eq_refl eq_refl eq_refl eq_refl).
Defined.
End OnTheToyFileSystem.

(** ** The shape of what a parse builds *)

(** X13: in the store a finished parse leaves, every dict of the parser
    refers only to dicts made after it, each of them in the store: the
    dicts under [self.parameters] contain no cycle, and reading them
    back as a tree reaches the end of every branch. *)
Theorem parse_builds_a_finite_tree (h : heap) (lines : list string) :
  match parse_lines h lines with
  | Ok self =>
      refs_ahead (parameters self) (store self) /\
      cut_free (parameters_tree self) = true
  | Raise _ => True
  end.
Proof.
  unfold parse_lines.
  pose proof (for_lines_well_formed lines _ (init_well_formed h)) as H.
  destruct (for_lines lines _) as [[self cur]|e]; simpl; [|done].
  destruct H as (Hp & Hh & _). simpl in *. split; [exact Hh|].
  unfold parameters_tree. by apply (reify_cut_free (parameters self)).
Qed.
